(** * EODHD API integration module: a shallow embedding and its properties

    Source: [src/lib/data_centre/database/utils/eodhd_utils.py].

    The module issues one HTTP GET per call, parses the JSON body and reshapes
    it with pandas into a table.  The embedding has four layers:

    - [Py]: the Python values the module handles (JSON documents, dicts,
      lists of dicts), exceptions, and the effects of the module (the logger,
      the wall clock, raising and catching) as a small state-and-error monad;
    - [pd]: the part of pandas the module calls, on frames stored by column;
    - [requests]: the outcome of a GET, [raise_for_status] and [json];
    - [Eodhd]: the constants and the five functions of the source file. *)

From Stdlib Require Import String Ascii List ZArith QArith Bool Lia.
Import ListNotations.
Close Scope Q_scope.
Open Scope list_scope.
Open Scope string_scope.

(* ================================================================== *)
(** * Python values, exceptions and effects *)
(* ================================================================== *)

Module Py.

(** A cell of a table or a value of a JSON object.  [VNA] stands for both
    [None] (JSON null) and [NaN]: pandas treats the two alike as missing.
    Numbers are only carried around by the module, never computed with.
    [VTime] is a [datetime.datetime] value.  [VNested] is a nested JSON
    value, a list or a dict, which pandas keeps as one cell; [tag] tells
    one such value from another. *)
Inductive value : Type :=
  | VNA
  | VBool (b : bool)
  | VNum (q : Q)
  | VStr (s : string)
  | VTime (t : Z)
  | VNested (tag : nat).

(** A Python [dict] with string keys, in insertion order. *)
Definition dict := list (string * value).

(** A JSON scalar. *)
Inductive scalar : Type :=
  | SNull
  | SBool (b : bool)
  | SNum (q : Q)
  | SStr (s : string).

(** Exceptions.  The first three are subclasses of
    [requests.exceptions.RequestException]; [OtherError] is any further
    subclass of [Exception] outside [requests], by its class name. *)
Inductive exn : Type :=
  | ConnectionError
  | HTTPError (status : Z)
  | JSONDecodeError
  | KeyError (key : string)
  | ValueError
  | TypeError
  | RecursionError
  | OtherError (name : string).

Definition is_RequestException (e : exn) : bool :=
  match e with
  | ConnectionError | HTTPError _ | JSONDecodeError => true
  | _ => false
  end.

Inductive outcome (A : Type) : Type :=
  | Ok (a : A)
  | Raise (e : exn).
Arguments Ok {A} a.
Arguments Raise {A} e.

(** What [pd.DataFrame] makes of a document whose shape the module does not
    expect: the exception it raises, or the table it builds, given by its
    number of rows and, for each column label, the cell of every row. *)
Definition built : Type := outcome (nat * list (string * (nat -> value))).

(** What [response.json()] can hand to the module:
    - a scalar;
    - [JObject d]: an object all of whose values are scalars (the shape of
      the provider's error messages);
    - [JArray rows]: an array all of whose elements are objects (the shape
      the provider documents), their values scalar or nested;
    - [JOther is_array b]: every other document, that is an object with a
      nested value ([is_array = false]) or an array with an element that is
      not an object ([is_array = true]).  Such a document is not empty.
      pandas reads it by rules of its own (an object of arrays column by
      column, an array of arrays row by row, ...), which are not spelled
      out here: [b] is what [pd.DataFrame] makes of the document, and the
      statements below hold whatever it is.  A column label that is not a
      string (pandas numbers the columns of an array of arrays) is stood
      for by a string other than the labels the module names. *)
Inductive json : Type :=
  | JNull
  | JBool (b : bool)
  | JNum (q : Q)
  | JStr (s : string)
  | JObject (d : list (string * scalar))
  | JArray (rows : list dict)
  | JOther (is_array : bool) (b : built).

(** Python truth value, as tested by [not data]. *)
Definition truthy (j : json) : bool :=
  match j with
  | JNull => false
  | JBool b => b
  | JNum q => negb (Qnum q =? 0)%Z
  | JStr s => negb (s =? "")
  | JObject d => match d with [] => false | _ => true end
  | JArray rows => match rows with [] => false | _ => true end
  | JOther _ _ => true
  end.

(** [isinstance(data, list)] *)
Definition is_list (j : json) : bool :=
  match j with
  | JArray _ => true
  | JOther is_array _ => is_array
  | _ => false
  end.

Definition dict_get (k : string) (d : dict) : option value :=
  match find (fun kv => fst kv =? k) d with
  | Some kv => Some (snd kv)
  | None => None
  end.

(** [d[k] = v]: overwrite in place, or insert at the end. *)
Fixpoint dict_set (k : string) (v : value) (d : dict) : dict :=
  match d with
  | [] => [(k, v)]
  | (k', v') :: r => if k' =? k then (k', v) :: r else (k', v') :: dict_set k v r
  end.

(** [s.replace(old, new)] for one-character [old] and [new]. *)
Fixpoint replace (old new : ascii) (s : string) : string :=
  match s with
  | EmptyString => EmptyString
  | String c r => String (if Ascii.eqb c old then new else c) (replace old new r)
  end.

(** Log records: the level, the text of the f-string up to the interpolated
    exception, the exception itself, and the [exc_info] flag. *)
Inductive level : Type := DEBUG | WARNING | ERROR.

Record log_record : Type := mkLog {
  log_level : level;
  log_text : string;
  log_exn : option exn;
  log_exc_info : bool
}.

(** The state threaded through a call: how many times the clock has been
    read, and what has been logged (oldest first). *)
Record state : Type := mkState {
  ticks : nat;
  logs : list log_record
}.

(** A body on which [response.json()] raises an exception that is not a
    [RequestException]: an integer literal longer than the interpreter's
    digit limit makes the parser raise a plain [ValueError], and a document
    nested too deeply makes it raise [RecursionError]. *)
Inductive crash : Type := DigitLimit | TooDeep.

Definition crash_exn (c : crash) : exn :=
  match c with
  | DigitLimit => ValueError
  | TooDeep => RecursionError
  end.

(** The world outside: what each URL answers, and what the clock shows at
    each successive reading.  A URL gives no response at all, or a response
    with a status and a body: a JSON document ([Some]), text that is not
    JSON ([None]), or ([Unreadable]) a document that the parser gives up
    on. *)
Inductive reply : Type :=
  | NoResponse
  | Response (status : Z) (body : option json)
  | Unreadable (status : Z) (c : crash).

Record world : Type := mkWorld {
  http : string -> reply;
  clock : nat -> Z
}.

Definition M (A : Type) : Type := state -> outcome A * state.

Definition ret {A} (a : A) : M A := fun s => (Ok a, s).

Definition bind {A B} (m : M A) (k : A -> M B) : M B :=
  fun s => match m s with
           | (Ok a, s') => k a s'
           | (Raise e, s') => (Raise e, s')
           end.

Definition lift {A} (o : outcome A) : M A := fun s => (o, s).

(** [try: body except cls as e: handler(e)] where [catches] decides
    membership in [cls]. *)
Definition try_except {A} (body : M A) (catches : exn -> bool)
           (handler : exn -> M A) : M A :=
  fun s => match body s with
           | (Ok a, s') => (Ok a, s')
           | (Raise e, s') =>
               if catches e then handler e s' else (Raise e, s')
           end.

(** [except Exception] *)
Definition Exception (e : exn) : bool := true.

Definition emit (r : log_record) : M unit :=
  fun s => (Ok tt, mkState (ticks s) (logs s ++ [r])).

(** [datetime.datetime.now()] *)
Definition now (w : world) : M value :=
  fun s => (Ok (VTime (clock w (ticks s))), mkState (S (ticks s)) (logs s)).

Fixpoint mapM {A B} (f : A -> M B) (l : list A) : M (list B) :=
  match l with
  | [] => ret []
  | a :: r => bind (f a) (fun b => bind (mapM f r) (fun bs => ret (b :: bs)))
  end.

End Py.

Import Py.

Notation "x <- c ;; k" := (bind c (fun x => k))
  (at level 61, c at next level, right associativity).
Notation "c ;;; k" := (bind c (fun _ => k))
  (at level 61, right associativity).

(* ================================================================== *)
(** * The pandas operations the module uses *)
(* ================================================================== *)

Module pd.

(** A DataFrame with a default integer index: the number of rows and the
    labelled columns, in order. *)
Record frame : Type := mkFrame {
  nrows : nat;
  cols : list (string * list value)
}.

Definition columns (df : frame) : list string := map fst (cols df).

Definition empty_frame : frame := mkFrame 0 [].

(** [df.empty]: some axis has length 0. *)
Definition empty (df : frame) : bool :=
  (nrows df =? 0)%nat || (length (cols df) =? 0)%nat.

Definition add_key (seen : list string) (k : string) : list string :=
  if existsb (String.eqb k) seen then seen else seen ++ [k].

(** Column labels of a list of records: the keys in order of first
    appearance. *)
Definition record_columns (rows : list dict) : list string :=
  fold_left (fun seen d => fold_left add_key (map fst d) seen) rows [].

(** The value a record contributes to a column: missing keys give NaN. *)
Definition field (k : string) (d : dict) : value :=
  match dict_get k d with Some v => v | None => VNA end.

Definition from_records (rows : list dict) : frame :=
  mkFrame (length rows)
          (map (fun c => (c, map (field c) rows)) (record_columns rows)).

(** The table with [n] rows whose columns are given cell by cell. *)
Definition tabulate (n : nat) (cs : list (string * (nat -> value))) : frame :=
  mkFrame n (map (fun kc => (fst kc, map (snd kc) (seq 0 n))) cs).

(** [pd.DataFrame(data)].  [None], [[]] and [{}] give the empty frame, a
    scalar is refused, and so is a dict of scalars (no index to align); a
    list of dicts is read record by record; for any other document see
    [JOther]. *)
Definition DataFrame (data : json) : outcome frame :=
  match data with
  | JNull => Ok empty_frame
  | JBool _ | JNum _ | JStr _ => Raise ValueError
  | JObject [] => Ok empty_frame
  | JObject (_ :: _) => Raise ValueError
  | JArray rows => Ok (from_records rows)
  | JOther _ (Ok (n, cs)) => Ok (tabulate n cs)
  | JOther _ (Raise e) => Raise e
  end.

Definition column (c : string) (df : frame) : option (list value) :=
  match find (fun kv => fst kv =? c) (cols df) with
  | Some kv => Some (snd kv)
  | None => None
  end.

(** [df[c]] *)
Definition getitem (c : string) (df : frame) : outcome (list value) :=
  match column c df with
  | Some vs => Ok vs
  | None => Raise (KeyError c)
  end.

Fixpoint set_col (c : string) (vs : list value)
         (l : list (string * list value)) : list (string * list value) :=
  match l with
  | [] => [(c, vs)]
  | (k, x) :: r => if k =? c then (k, vs) :: r else (k, x) :: set_col c vs r
  end.

(** [df[c] = series]: an existing column keeps its position. *)
Definition setitem (c : string) (vs : list value) (df : frame) : frame :=
  mkFrame (nrows df) (set_col c vs (cols df)).

(** [df[c] = scalar] *)
Definition setitem_scalar (c : string) (v : value) (df : frame) : frame :=
  setitem c (repeat v (nrows df)) df.

(** One element of [series + suffix]: strings are concatenated, missing
    values stay missing, and a number, a boolean, a timestamp, a list or a
    dict raises. *)
Definition add_str (suffix : string) (v : value) : outcome value :=
  match v with
  | VStr s => Ok (VStr (s ++ suffix))
  | VNA => Ok VNA
  | _ => Raise TypeError
  end.

(** [series + suffix] on a column of object dtype, the dtype of every
    column that holds a string and of a column of JSON nulls.  (A column in
    which every value is missing and some key is absent is typed float by
    pandas, and raises; the statements below that promise a table ask for
    strings.) *)
Fixpoint series_add (vs : list value) (suffix : string)
  : outcome (list value) :=
  match vs with
  | [] => Ok []
  | v :: r =>
      match add_str suffix v with
      | Raise e => Raise e
      | Ok v' =>
          match series_add r suffix with
          | Raise e => Raise e
          | Ok r' => Ok (v' :: r')
          end
      end
  end.

(** [series.apply(f)] *)
Definition apply (f : value -> value) (vs : list value) : list value :=
  map f vs.

Fixpoint select_cols (names : list string) (df : frame)
  : outcome (list (string * list value)) :=
  match names with
  | [] => Ok []
  | c :: r =>
      match getitem c df with
      | Raise e => Raise e
      | Ok vs =>
          match select_cols r df with
          | Raise e => Raise e
          | Ok l => Ok ((c, vs) :: l)
          end
      end
  end.

(** [df[[c1, ..., cn]]] *)
Definition select (names : list string) (df : frame) : outcome frame :=
  match select_cols names df with
  | Raise e => Raise e
  | Ok l => Ok (mkFrame (nrows df) l)
  end.

(** [df.drop(columns=labels)]: every label has to exist. *)
Definition drop (labels : list string) (df : frame) : outcome frame :=
  match find (fun c => negb (existsb (String.eqb c) (columns df))) labels with
  | Some c => Raise (KeyError c)
  | None =>
      Ok (mkFrame (nrows df)
            (filter (fun kv => negb (existsb (String.eqb (fst kv)) labels))
                    (cols df)))
  end.

(** [df.columns = names]: the lengths have to agree. *)
Definition set_columns (names : list string) (df : frame) : outcome frame :=
  if (length names =? length (cols df))%nat
  then Ok (mkFrame (nrows df) (combine names (map snd (cols df))))
  else Raise ValueError.

Definition column_or_na (c : string) (df : frame) : list value :=
  match column c df with
  | Some vs => vs
  | None => repeat VNA (nrows df)
  end.

(** [pd.concat([a, b], ignore_index=True)]: the rows of [a] then those of
    [b], over the union of the columns, missing cells filled with NaN. *)
Definition concat (a b : frame) : frame :=
  mkFrame (nrows a + nrows b)
          (map (fun c => (c, (column_or_na c a ++ column_or_na c b)%list))
               (fold_left add_key (columns b) (columns a))).

(** The cell of column [c] in row [i]. *)
Definition cell (df : frame) (c : string) (i : nat) : option value :=
  match column c df with
  | Some vs => nth_error vs i
  | None => None
  end.

End pd.

(* ================================================================== *)
(** * The requests calls the module uses *)
(* ================================================================== *)

Module requests.

(** A response: its status, and what parsing its body gives. *)
Record response : Type := mkResponse {
  status_code : Z;
  content : outcome Py.json
}.

(** [requests.get(url)]: a connection failure raises. *)
Definition get (w : world) (url : string) : M response :=
  match http w url with
  | NoResponse => lift (Raise ConnectionError)
  | Response st (Some j) => ret (mkResponse st (Ok j))
  | Response st None => ret (mkResponse st (Raise JSONDecodeError))
  | Unreadable st c => ret (mkResponse st (Raise (crash_exn c)))
  end.

(** [response.raise_for_status()]: raises on 4xx and 5xx only. *)
Definition raise_for_status (r : response) : M unit :=
  if (400 <=? status_code r)%Z && (status_code r <? 600)%Z
  then lift (Raise (HTTPError (status_code r)))
  else ret tt.

(** [response.json()]: the parsed body; text that is not JSON raises
    [requests.exceptions.JSONDecodeError], which is a [RequestException];
    what else the parser raises ([ValueError], [RecursionError]) comes
    through as it is. *)
Definition json (r : response) : M Py.json := lift (content r).

End requests.

(* ================================================================== *)
(** * eodhd_utils.py *)
(* ================================================================== *)

Module Eodhd.

Import pd.

Definition PRICE_COLUMNS_SORTED : list string :=
  ["Ticker_ID"; "Date"; "Open"; "High"; "Low";
   "Close"; "Adjusted_Close"; "Volume"].

Definition PRICE_COLUMNS : list string :=
  ["Date"; "Open"; "High"; "Low";
   "Close"; "Adjusted_Close"; "Volume"; "Ticker_ID"].

Definition US_EXCHANGES : list (string * dict) :=
  [ ("NYSE",
     [ ("Name", VStr "New York Stock Exchange");
       ("OperatingMIC", VStr "XNYS");
       ("Country", VStr "US");
       ("Currency", VStr "USD");
       ("CountryISO2", VStr "US");
       ("CountryISO3", VStr "USA") ]);
    ("NASDAQ",
     [ ("Name", VStr "NASDAQ");
       ("OperatingMIC", VStr "XNAS");
       ("Country", VStr "US");
       ("Currency", VStr "USD");
       ("CountryISO2", VStr "US");
       ("CountryISO3", VStr "USA") ]) ].

Module APIEndpoints.
Definition BASE_URL : string := "https://eodhd.com/api".
Definition EXCHANGES : string := BASE_URL ++ "/exchanges-list".
Definition TICKERS : string := BASE_URL ++ "/exchange-symbol-list".
Definition HISTORICAL : string := BASE_URL ++ "/eod".
Definition DAILY : string := BASE_URL ++ "/eod-bulk-last-day".
End APIEndpoints.

(** [_make_api_request]: the parsed body, or [None] (here [JNull], the same
    Python value) after logging when the request raised. *)
Definition _make_api_request (w : world) (url : string) : M json :=
  try_except
    (response <- requests.get w url ;;
     requests.raise_for_status response ;;;
     requests.json response)
    is_RequestException
    (fun e =>
       emit (mkLog ERROR "API request failed: " (Some e) true) ;;;
       ret JNull).

(** [x in list(US_EXCHANGES.keys())] *)
Definition in_keys (x : value) (keys : list string) : bool :=
  match x with
  | VStr s => existsb (String.eqb s) keys
  | _ => false
  end.

(** [lambda x: 'US' if x in list(US_EXCHANGES.keys()) else x] *)
Definition us_collapse (x : value) : value :=
  if in_keys x (map fst US_EXCHANGES) then VStr "US" else x.

Definition tickers_url (api_key exchange : string) : string :=
  APIEndpoints.TICKERS ++ "/" ++ exchange
    ++ "?api_token=" ++ api_key ++ "&fmt=json".

Definition TICKER_COLUMNS : list string :=
  ["Ticker_ID"; "Code"; "Name"; "Country"; "Exchange"; "EoDHD_Exchange";
   "Currency"; "Type"; "Isin"; "Source"; "Date_Updated"].

Definition retrieve_tickers (w : world) (api_key exchange : string)
  : M (option frame) :=
  data <- _make_api_request w (tickers_url api_key exchange) ;;
  if negb (truthy data) || negb (is_list data) then ret None else
  try_except
    (df <- lift (DataFrame data) ;;
     let df := setitem_scalar "Source"
                 (VStr ("EoDHD.com - Exchange " ++ exchange)) df in
     t <- now w ;;
     let df := setitem_scalar "Date_Updated" t df in
     code <- lift (getitem "Code" df) ;;
     ids <- lift (series_add code ("_" ++ exchange)) ;;
     let df := setitem "Ticker_ID" ids df in
     ex <- lift (getitem "Exchange" df) ;;
     let df := setitem "EoDHD_Exchange" (apply us_collapse ex) df in
     out <- lift (select TICKER_COLUMNS df) ;;
     ret (Some out))
    Exception
    (fun e =>
       emit (mkLog ERROR
               ("Failed to process ticker data for " ++ exchange ++ ": ")
               (Some e) false) ;;;
       ret None).

Definition exchanges_url (api_key : string) : string :=
  APIEndpoints.EXCHANGES ++ "/?api_token=" ++ api_key ++ "&fmt=json".

(** [{**exchange_data, 'Code': code, 'Source': 'Manual_Input',
      'Date_Updated': datetime.datetime.now()}] *)
Definition manual_record (w : world) (entry : string * dict) : M dict :=
  let '(code, exchange_data) := entry in
  t <- now w ;;
  ret (dict_set "Date_Updated" t
         (dict_set "Source" (VStr "Manual_Input")
            (dict_set "Code" (VStr code) exchange_data))).

Definition retrieve_exchanges (w : world) (api_key : string)
  : M (option frame) :=
  data <- _make_api_request w (exchanges_url api_key) ;;
  if negb (truthy data) then ret None else
  try_except
    (df <- lift (DataFrame data) ;;
     let df := setitem_scalar "Source" (VStr "EoDHD.com") df in
     t <- now w ;;
     let df := setitem_scalar "Date_Updated" t df in
     records <- mapM (manual_record w) US_EXCHANGES ;;
     us_exchanges <- lift (DataFrame (JArray records)) ;;
     ret (Some (concat df us_exchanges)))
    Exception
    (fun e =>
       emit (mkLog ERROR "Failed to process exchange data: " (Some e) true) ;;;
       ret None).

Definition eod_ticker (ticker exchange : string) : string :=
  ticker ++ "." ++ exchange.

Definition historical_url (exchange ticker date_to eodhd_api : string)
  : string :=
  "https://eodhd.com/api/eod/" ++ eod_ticker ticker exchange
    ++ "?api_token=" ++ eodhd_api
    ++ "&from=" ++ "1900-01-01" ++ "&to=" ++ date_to ++ "&fmt=json".

(** The function has no [return] after its handler: it falls off its end
    and gives [None]. *)
Definition retrieve_historical_price (w : world)
           (exchange ticker date_to eodhd_api : string) : M (option frame) :=
  try_except
    (response <- requests.get w
                   (historical_url exchange ticker date_to eodhd_api) ;;
     price_data <- requests.json response ;;
     price_data <- lift (DataFrame price_data) ;;
     if empty price_data then
       emit (mkLog DEBUG
               ("No data returned for Ticker: " ++ ticker
                  ++ " on Exchange: " ++ exchange)
               None false) ;;;
       ret None
     else
       let id := replace "." "_" (eod_ticker ticker exchange) in
       let price_data := setitem_scalar "Ticker_ID" (VStr id) price_data in
       price_data <- lift (set_columns
                             (firstn (length (cols price_data)) PRICE_COLUMNS)
                             price_data) ;;
       price_data <- lift (select PRICE_COLUMNS_SORTED price_data) ;;
       ret (Some price_data))
    Exception
    (fun e =>
       emit (mkLog ERROR
               ("Updating historical price data -Ticker: " ++ ticker ++ " -  ")
               (Some e) false) ;;;
       ret None).

Definition daily_url (exchange api_key : string) : string :=
  APIEndpoints.DAILY ++ "/" ++ exchange
    ++ "?api_token=" ++ api_key ++ "&fmt=json".

Definition retrieve_daily_price (w : world) (exchange api_key : string)
  : M (option frame) :=
  data <- _make_api_request w (daily_url exchange api_key) ;;
  if negb (truthy data) then
    emit (mkLog WARNING ("No daily price data retrieved for " ++ exchange)
            None false) ;;;
    ret None
  else
  try_except
    (df <- lift (DataFrame data) ;;
     code <- lift (getitem "code" df) ;;
     ids <- lift (series_add code ("_" ++ exchange)) ;;
     let df := setitem "Ticker_ID" ids df in
     df <- lift (drop ["code"; "exchange_short_name"] df) ;;
     df <- lift (set_columns PRICE_COLUMNS df) ;;
     df <- lift (select PRICE_COLUMNS_SORTED df) ;;
     out <- lift (select PRICE_COLUMNS df) ;;
     ret (Some out))
    Exception
    (fun e =>
       emit (mkLog ERROR
               ("Failed to process daily prices for " ++ exchange ++ ": ")
               (Some e) true) ;;;
       ret None).

End Eodhd.

Import pd Eodhd.

(* ================================================================== *)
(** * Vocabulary of the statements *)
(* ================================================================== *)

(** A well-formed frame has one value per row in every column. *)
Definition wf (df : frame) : Prop :=
  Forall (fun kv => length (snd kv) = nrows df) (cols df).

(** The provider rows as tagged by [retrieve_exchanges] when the clock
    shows [t0]. *)
Definition tagged_exchanges (rows : list dict) (t0 : Z) : frame :=
  setitem_scalar "Date_Updated" (VTime t0)
    (setitem_scalar "Source" (VStr "EoDHD.com") (from_records rows)).

(** The same for the frame pandas has built from the response, whatever
    the shape of the response. *)
Definition tagged_frame (df : frame) (t0 : Z) : frame :=
  setitem_scalar "Date_Updated" (VTime t0)
    (setitem_scalar "Source" (VStr "EoDHD.com") df).

(** The table of the two manual rows, given their two clock readings. *)
Definition manual_frame (t1 t2 : Z) : frame :=
  from_records
    [ [ ("Name", VStr "New York Stock Exchange"); ("OperatingMIC", VStr "XNYS");
        ("Country", VStr "US"); ("Currency", VStr "USD");
        ("CountryISO2", VStr "US"); ("CountryISO3", VStr "USA");
        ("Code", VStr "NYSE"); ("Source", VStr "Manual_Input");
        ("Date_Updated", VTime t1) ];
      [ ("Name", VStr "NASDAQ"); ("OperatingMIC", VStr "XNAS");
        ("Country", VStr "US"); ("Currency", VStr "USD");
        ("CountryISO2", VStr "US"); ("CountryISO3", VStr "USA");
        ("Code", VStr "NASDAQ"); ("Source", VStr "Manual_Input");
        ("Date_Updated", VTime t2) ] ].

(** Row [i] of [t] is the manual entry of [US_EXCHANGES] under [code]: it
    carries the code, every field of the static entry, and the manual
    source tag. *)
Definition manual_row (t : frame) (i : nat) (code : string) : Prop :=
  exists exchange_data,
    find (fun e => fst e =? code) US_EXCHANGES = Some (code, exchange_data) /\
    cell t "Code" i = Some (VStr code) /\
    cell t "Source" i = Some (VStr "Manual_Input") /\
    Forall (fun kv => cell t (fst kv) i = Some (snd kv)) exchange_data.

(** [response.raise_for_status()] lets the status pass. *)
Definition status_passes (status : Z) : bool :=
  negb ((400 <=? status)%Z && (status <? 600)%Z).

(** A world where every URL answers [200] with the given body, and whose
    clock counts its readings. *)
Definition serving (body : json) : world :=
  mkWorld (fun _ => Response 200 (Some body)) (fun n => Z.of_nat n).

Definition s0 : state := mkState 0 [].

Definition exchange_row_demo : dict :=
  [ ("Name", VStr "London Exchange"); ("Code", VStr "LSE");
    ("OperatingMIC", VStr "XLON"); ("Country", VStr "UK");
    ("Currency", VStr "GBP"); ("CountryISO2", VStr "GB");
    ("CountryISO3", VStr "GBR") ].

Definition exchanges_demo_world : world :=
  serving (JArray [exchange_row_demo]).

Definition exchanges_demo_table : frame :=
  concat (tagged_exchanges [exchange_row_demo] 0) (manual_frame 1 2).


(** The same for a response that is an array of rows. *)
Definition reshape_tickers (exchange : string) (t0 : Z) (rows : list dict)
  : outcome frame :=
  let df := setitem_scalar "Date_Updated" (VTime t0)
              (setitem_scalar "Source"
                 (VStr ("EoDHD.com - Exchange " ++ exchange))
                 (from_records rows)) in
  match getitem "Code" df with
  | Raise e => Raise e
  | Ok code =>
      match series_add code ("_" ++ exchange) with
      | Raise e => Raise e
      | Ok ids =>
          let df := setitem "Ticker_ID" ids df in
          match getitem "Exchange" df with
          | Raise e => Raise e
          | Ok ex =>
              select TICKER_COLUMNS
                (setitem "EoDHD_Exchange" (apply us_collapse ex) df)
          end
      end
  end.


Definition ticker_row_demo : dict :=
  [ ("Code", VStr "VOD"); ("Name", VStr "Vodafone"); ("Country", VStr "UK");
    ("Exchange", VStr "LSE"); ("Currency", VStr "GBP");
    ("Type", VStr "Common Stock"); ("Isin", VStr "GB00BH4HKS39") ].

Definition tickers_demo_world : world := serving (JArray [ticker_row_demo]).

Definition tickers_demo_table : frame :=
  Eval vm_compute in
    match reshape_tickers "LSE" 0 [ticker_row_demo] with
    | Ok t => t
    | Raise _ => empty_frame
    end.

(** The reshaping of [retrieve_historical_price] once the response has
    given a non-empty frame. *)
Definition reshape_historical (exchange ticker : string) (df : frame)
  : outcome frame :=
  let id := replace "." "_" (eod_ticker ticker exchange) in
  let df := setitem_scalar "Ticker_ID" (VStr id) df in
  match set_columns (firstn (length (cols df)) PRICE_COLUMNS) df with
  | Raise e => Raise e
  | Ok df => select PRICE_COLUMNS_SORTED df
  end.

Definition historical_debug (exchange ticker : string) : log_record :=
  mkLog DEBUG
    ("No data returned for Ticker: " ++ ticker ++ " on Exchange: " ++ exchange)
    None false.

Definition historical_error (ticker : string) (e : exn) : log_record :=
  mkLog ERROR ("Updating historical price data -Ticker: " ++ ticker ++ " -  ")
    (Some e) false.

Definition logged (s : state) (r : log_record) : state :=
  mkState (ticks s) (logs s ++ [r]).

(** One end-of-day bar as the provider documents it. *)
Definition bar_demo : dict :=
  [ ("date", VStr "2024-01-02"); ("open", VNum 187.15); ("high", VNum 188.44);
    ("low", VNum 183.89); ("close", VNum 185.64);
    ("adjusted_close", VNum 184.73); ("volume", VNum 82488700) ].

(** A bar that already carries a field named Ticker_ID, ahead of the
    provider's seven. *)
Definition bar_with_own_id : dict := ("Ticker_ID", VStr "from-provider") :: bar_demo.

(** A bar with one field more than the provider documents. *)
Definition bar_too_wide : dict := (bar_demo ++ [("turnover", VNum 15312000000)])%list.

Definition historical_demo_table : frame :=
  Eval vm_compute in
    match reshape_historical "US" "AAPL" (from_records [bar_demo]) with
    | Ok t => t
    | Raise _ => empty_frame
    end.

(** The reshaping of [retrieve_daily_price]. *)
Definition reshape_daily (exchange : string) (df : frame) : outcome frame :=
  match getitem "code" df with
  | Raise e => Raise e
  | Ok code =>
      match series_add code ("_" ++ exchange) with
      | Raise e => Raise e
      | Ok ids =>
          match drop ["code"; "exchange_short_name"]
                     (setitem "Ticker_ID" ids df) with
          | Raise e => Raise e
          | Ok df =>
              match set_columns PRICE_COLUMNS df with
              | Raise e => Raise e
              | Ok df =>
                  match select PRICE_COLUMNS_SORTED df with
                  | Raise e => Raise e
                  | Ok df => select PRICE_COLUMNS df
                  end
              end
          end
      end
  end.


Definition daily_warning (exchange : string) : log_record :=
  mkLog WARNING ("No daily price data retrieved for " ++ exchange) None false.

Definition daily_error (exchange : string) (e : exn) : log_record :=
  mkLog ERROR ("Failed to process daily prices for " ++ exchange ++ ": ")
    (Some e) true.

(** A cell that [series + str] accepts. *)
Definition str_or_missing (v : value) : Prop :=
  v = VNA \/ exists c, v = VStr c.

(** A cell that holds a string. *)
Definition is_str (v : value) : Prop := exists c, v = VStr c.

(** One row of the bulk last-day endpoint as the provider documents it. *)
Definition daily_row_demo : dict :=
  ("code", VStr "AAPL") :: ("exchange_short_name", VStr "US") :: bar_demo.

(** The same row with a number for its code. *)
Definition daily_row_numeric_code : dict :=
  ("code", VNum 700) :: ("exchange_short_name", VStr "HK") :: bar_demo.

(** The same row with a field of its own named Ticker_ID in front. *)
Definition daily_row_own_id : dict :=
  ("Ticker_ID", VStr "from-provider") :: daily_row_demo.

Definition daily_demo_table : frame :=
  Eval vm_compute in
    match reshape_daily "US" (from_records [daily_row_demo]) with
    | Ok t => t
    | Raise _ => empty_frame
    end.

(** The result of a retrieval: a table with at least one row and one
    column, or the absent marker. *)
Definition populated_or_absent (r : option frame) : Prop :=
  match r with
  | None => True
  | Some t => 0 < nrows t /\ 0 < length (columns t)
  end.

(** A reply that makes the request helper give up: no response at all, a
    4xx or 5xx status, or a body that is not JSON. *)
Definition transport_failure (r : reply) : Prop :=
  match r with
  | NoResponse => True
  | Response status body => status_passes status = false \/ body = None
  | Unreadable status _ => status_passes status = false
  end.

(** A reply on which the request helper raises: the status passes and the
    parser gives up on the body with an exception of its own. *)
Definition parser_crash (r : reply) : option exn :=
  match r with
  | Unreadable status c =>
      if status_passes status then Some (crash_exn c) else None
  | _ => None
  end.

Definition request_error (e : exn) : log_record :=
  mkLog ERROR "API request failed: " (Some e) true.

(** A world that answers [404] and yet sends one documented bar. *)
Definition not_found_with_rows : world :=
  mkWorld (fun _ => Response 404 (Some (JArray [bar_demo])))
          (fun n => Z.of_nat n).


Definition exchanges_error (e : exn) : log_record :=
  mkLog ERROR "Failed to process exchange data: " (Some e) true.

(** The provider fields that [retrieve_tickers] reads or projects. *)
Definition TICKER_PROVIDER_COLUMNS : list string :=
  ["Code"; "Name"; "Country"; "Exchange"; "Currency"; "Type"; "Isin"].

(** The labels of the manual rows of [retrieve_exchanges]. *)
Definition MANUAL_COLUMNS : list string :=
  ["Name"; "OperatingMIC"; "Country"; "Currency"; "CountryISO2";
   "CountryISO3"; "Code"; "Source"; "Date_Updated"].

(** The provider columns that [retrieve_daily_price] keeps, in order. *)
Definition daily_kept (df : frame) : list (string * list value) :=
  filter (fun kv => negb (existsb (String.eqb (fst kv))
                            ["code"; "exchange_short_name"]))
         (cols df).


(** A provider error object, as a truthy body that is not a list. *)
Definition error_body : json := JObject [("error", SStr "Unauthenticated")].

(** A ticker row without its [Isin] field. *)
Definition ticker_row_no_isin : dict :=
  [ ("Code", VStr "VOD"); ("Name", VStr "Vodafone"); ("Country", VStr "UK");
    ("Exchange", VStr "LSE"); ("Currency", VStr "GBP");
    ("Type", VStr "Common Stock") ].

(** A bar without its volume. *)
Definition bar_too_narrow : dict :=
  [ ("date", VStr "2024-01-02"); ("open", VNum 187.15); ("high", VNum 188.44);
    ("low", VNum 183.89); ("close", VNum 185.64);
    ("adjusted_close", VNum 184.73) ].

(** A daily row without its [exchange_short_name]. *)
Definition daily_row_no_exchange : dict := ("code", VStr "AAPL") :: bar_demo.

(** A world that answers nothing at all, and one whose body is no JSON. *)
Definition unreachable : world :=
  mkWorld (fun _ => NoResponse) (fun n => Z.of_nat n).

Definition garbled : world :=
  mkWorld (fun _ => Response 200 None) (fun n => Z.of_nat n).

Definition ticker_row_bp : dict :=
  [ ("Code", VStr "BP"); ("Name", VStr "BP"); ("Country", VStr "UK");
    ("Exchange", VStr "LSE"); ("Currency", VStr "GBP");
    ("Type", VStr "Common Stock"); ("Isin", VStr "GB0007980591") ].

Definition tickers_pair_table : frame :=
  Eval vm_compute in
    match reshape_tickers "LSE" 0 [ticker_row_demo; ticker_row_bp] with
    | Ok t => t
    | Raise _ => empty_frame
    end.

(** An exchange row of the provider that has a field the manual rows lack
    and lacks a field they have. *)
Definition exchange_row_partial : dict :=
  [ ("Name", VStr "London Exchange"); ("Code", VStr "LSE");
    ("Country", VStr "UK"); ("Flag", VStr "gb") ].

Definition exchanges_partial_table : frame :=
  concat (tagged_exchanges [exchange_row_partial] 0) (manual_frame 1 2).

(** A provider row that describes NYSE itself. *)
Definition exchange_row_nyse : dict :=
  [ ("Name", VStr "NYSE from the provider"); ("Code", VStr "NYSE");
    ("Country", VStr "USA") ].

Definition exchanges_nyse_table : frame :=
  concat (tagged_exchanges [exchange_row_nyse] 0) (manual_frame 1 2).

(** The exception a reply without a JSON body makes [requests] raise. *)
Definition reply_exception (r : reply) : option exn :=
  match r with
  | NoResponse => Some ConnectionError
  | Response _ None => Some JSONDecodeError
  | Response _ (Some _) => None
  | Unreadable _ c => Some (crash_exn c)
  end.

Definition is_KeyError (e : exn) : Prop := exists k, e = KeyError k.

(** A cell that is neither a string nor missing. *)
Definition not_text (v : value) : Prop :=
  match v with
  | VBool _ | VNum _ | VTime _ | VNested _ => True
  | VNA | VStr _ => False
  end.

(** A ticker row whose Code is a number. *)
Definition ticker_row_numeric_code : dict :=
  [ ("Code", VNum 700); ("Name", VStr "Tencent"); ("Country", VStr "HK");
    ("Exchange", VStr "HK"); ("Currency", VStr "HKD");
    ("Type", VStr "Common Stock"); ("Isin", VStr "KYG875721634") ].

(** A ticker row whose Code is null. *)
Definition ticker_row_null_code : dict :=
  [ ("Code", VNA); ("Name", VStr "Unlisted"); ("Country", VStr "UK");
    ("Exchange", VStr "LSE"); ("Currency", VStr "GBP");
    ("Type", VStr "Common Stock"); ("Isin", VNA) ].

Definition tickers_null_code_table : frame :=
  Eval vm_compute in
    match reshape_tickers "LSE" 0 [ticker_row_demo; ticker_row_null_code] with
    | Ok t => t
    | Raise _ => empty_frame
    end.



(** The object with the nine keys of a daily row, each with an empty
    array: [{"code": [], "exchange_short_name": [], "date": [], ...}].
    pandas reads an object of arrays column by column, so [pd.DataFrame]
    builds nine columns and no row. *)
Definition daily_columns_empty : json :=
  JOther false
    (Ok (0, map (fun c => (c, fun _ : nat => VNA))
              ["code"; "exchange_short_name"; "date"; "open"; "high"; "low";
               "close"; "adjusted_close"; "volume"])).

(** A world whose every reply is a 200 with an integer of more digits than
    the parser accepts. *)
Definition overlong : world :=
  mkWorld (fun _ => Unreadable 200 DigitLimit) (fun n => Z.of_nat n).

(* ================================================================== *)
(** * Facts about the monad *)
(* ================================================================== *)

(** Runs the monadic operations of a goal. *)
Ltac run :=
  cbv beta iota delta [ret bind lift try_except emit now Exception];
  cbn [fst snd ticks logs].

Lemma bind_ok {A B} (m : M A) (k : A -> M B) s a s1 :
  m s = (Ok a, s1) -> bind m k s = k a s1.
Proof. intros H. unfold bind. now rewrite H. Qed.

(* ================================================================== *)
(** * Facts about the frame operations *)
(* ================================================================== *)

Lemma find_key_map (F : string -> list value) (c : string) (l : list string) :
  find (fun kv => fst kv =? c) (map (fun k => (k, F k)) l)
  = if existsb (String.eqb c) l then Some (c, F c) else None.
Proof.
  induction l as [| k l IH]; cbn; [ reflexivity | ].
  rewrite (String.eqb_sym c k).
  destruct (String.eqb_spec k c) as [-> | Hne]; cbn; [ reflexivity | exact IH ].
Qed.

Lemma existsb_eqb_In (c : string) (l : list string) :
  existsb (String.eqb c) l = true <-> In c l.
Proof.
  rewrite existsb_exists. split.
  - intros [x [Hin Heq]]. apply String.eqb_eq in Heq. now subst.
  - intros Hin. exists c. split; [ assumption | apply String.eqb_refl ].
Qed.

Lemma existsb_eqb_not_In (c : string) (l : list string) :
  existsb (String.eqb c) l = false <-> ~ In c l.
Proof.
  rewrite <- existsb_eqb_In. destruct (existsb _ l); intuition congruence.
Qed.

Lemma In_add_key (c k : string) (seen : list string) :
  In c (add_key seen k) <-> In c seen \/ c = k.
Proof.
  unfold add_key. destruct (existsb (String.eqb k) seen) eqn:E.
  - apply existsb_eqb_In in E. split; [ auto | intros [H | ->]; assumption ].
  - rewrite in_app_iff. cbn. intuition.
Qed.

Lemma In_fold_add_key (c : string) (l seen : list string) :
  In c (fold_left add_key l seen) <-> In c seen \/ In c l.
Proof.
  revert seen. induction l as [| k l IH]; intros seen; cbn.
  - intuition.
  - rewrite IH, In_add_key. intuition.
Qed.

Lemma NoDup_add_key (k : string) (seen : list string) :
  NoDup seen -> NoDup (add_key seen k).
Proof.
  intros H. unfold add_key. destruct (existsb (String.eqb k) seen) eqn:E.
  - assumption.
  - apply existsb_eqb_not_In in E.
    apply NoDup_app; [ assumption | repeat constructor; intros [] | ].
    intros x Hx [<- | []]. contradiction.
Qed.

Lemma NoDup_fold_add_key (l seen : list string) :
  NoDup seen -> NoDup (fold_left add_key l seen).
Proof.
  revert seen. induction l as [| k l IH]; intros seen H; cbn;
    [ assumption | apply IH, NoDup_add_key, H ].
Qed.

Lemma NoDup_record_columns (rows : list dict) : NoDup (record_columns rows).
Proof.
  unfold record_columns. generalize (NoDup_nil string).
  generalize (@nil string) as seen.
  induction rows as [| d rows IH]; intros seen H; cbn;
    [ assumption | apply IH, NoDup_fold_add_key, H ].
Qed.

Lemma columns_from_records (rows : list dict) :
  columns (from_records rows) = record_columns rows.
Proof.
  unfold columns, from_records. cbn. rewrite map_map. cbn. apply map_id.
Qed.

Lemma column_from_records (c : string) (rows : list dict) :
  column c (from_records rows)
  = if existsb (String.eqb c) (record_columns rows)
    then Some (map (field c) rows) else None.
Proof.
  unfold column, from_records. cbn. rewrite find_key_map.
  now destruct (existsb _ _).
Qed.

(** ** Assigning a column *)

Lemma column_set_col_same (c : string) (vs : list value) l :
  find (fun kv => fst kv =? c) (set_col c vs l) = Some (c, vs).
Proof.
  induction l as [| [k x] l IH]; cbn.
  - now rewrite String.eqb_refl.
  - destruct (String.eqb_spec k c) as [-> | Hne]; cbn.
    + now rewrite String.eqb_refl.
    + apply String.eqb_neq in Hne. now rewrite Hne.
Qed.

Lemma column_set_col_other (c c' : string) (vs : list value) l :
  c <> c' ->
  find (fun kv => fst kv =? c) (set_col c' vs l)
  = find (fun kv => fst kv =? c) l.
Proof.
  intros Hne. induction l as [| [k x] l IH]; cbn.
  - apply not_eq_sym, String.eqb_neq in Hne. now rewrite Hne.
  - destruct (String.eqb_spec k c') as [-> | Hk]; cbn.
    + apply not_eq_sym, String.eqb_neq in Hne. now rewrite Hne.
    + now rewrite IH.
Qed.

Lemma column_setitem_same (c : string) (vs : list value) (df : frame) :
  column c (setitem c vs df) = Some vs.
Proof. unfold column, setitem. cbn. now rewrite column_set_col_same. Qed.

Lemma column_setitem_other (c c' : string) (vs : list value) (df : frame) :
  c <> c' -> column c (setitem c' vs df) = column c df.
Proof.
  intros H. unfold column, setitem. cbn. now rewrite column_set_col_other.
Qed.

Lemma set_col_fresh (c : string) (vs : list value) l :
  ~ In c (map fst l) -> set_col c vs l = (l ++ [(c, vs)])%list.
Proof.
  induction l as [| [k x] l IH]; cbn; intros H; [ reflexivity | ].
  destruct (String.eqb_spec k c) as [-> | Hk]; [ tauto | ].
  f_equal. apply IH. tauto.
Qed.

Lemma In_columns_set_col (c c' : string) (vs : list value) l :
  In c (map fst (set_col c' vs l)) <-> c = c' \/ In c (map fst l).
Proof.
  induction l as [| [k x] l IH]; cbn.
  - intuition.
  - destruct (String.eqb_spec k c') as [-> | Hk]; cbn; [ | rewrite IH ];
      intuition.
Qed.

(** ** Well-formed frames: every column has one value per row *)

Lemma wf_from_records (rows : list dict) : wf (from_records rows).
Proof.
  unfold wf, from_records. cbn. apply Forall_map, Forall_forall.
  intros c _. cbn. apply length_map.
Qed.

Lemma wf_setitem (c : string) (vs : list value) (df : frame) :
  wf df -> length vs = nrows df -> wf (setitem c vs df).
Proof.
  unfold wf, setitem. cbn. intros H Hl.
  induction H as [| [k x] l Hk Hl' IH]; cbn.
  - repeat constructor. assumption.
  - destruct (k =? c); constructor; cbn; auto.
Qed.

Lemma wf_setitem_scalar (c : string) (v : value) (df : frame) :
  wf df -> wf (setitem_scalar c v df).
Proof. intros H. apply wf_setitem; [ assumption | apply repeat_length ]. Qed.

Lemma wf_tabulate n cs : wf (tabulate n cs).
Proof.
  unfold wf, tabulate. cbn. apply Forall_map, Forall_forall.
  intros kc _. cbn. now rewrite length_map, length_seq.
Qed.

(** Whatever the document, the frame pandas builds from it is well formed. *)
Lemma wf_DataFrame data df : DataFrame data = Ok df -> wf df.
Proof.
  destruct data as [| b | n | x | [| kv d] | rows | a [[n cs] | e]]; cbn;
    try discriminate; intros [= <-].
  - constructor.
  - constructor.
  - apply wf_from_records.
  - apply wf_tabulate.
Qed.

Create HintDb frames.
#[local] Hint Resolve wf_from_records wf_setitem_scalar : frames.

Lemma wf_column (c : string) (df : frame) (vs : list value) :
  wf df -> column c df = Some vs -> length vs = nrows df.
Proof.
  unfold wf, column. intros H. destruct (find _ (cols df)) as [kv |] eqn:E;
    [ | discriminate ].
  intros [= <-]. apply find_some in E. destruct E as [Hin _].
  rewrite Forall_forall in H. now apply H.
Qed.

Lemma length_column_or_na (c : string) (df : frame) :
  wf df -> length (column_or_na c df) = nrows df.
Proof.
  intros H. unfold column_or_na. destruct (column c df) eqn:E.
  - eapply wf_column; eassumption.
  - apply repeat_length.
Qed.

(** ** Concatenation *)

Lemma column_concat (c : string) (a b : frame) :
  In c (columns a) \/ In c (columns b) ->
  column c (concat a b) = Some (column_or_na c a ++ column_or_na c b)%list.
Proof.
  intros H. unfold column, concat. cbn. rewrite find_key_map.
  apply In_fold_add_key, existsb_eqb_In in H. now rewrite H.
Qed.

Lemma cell_concat_left (c : string) (a b : frame) (i : nat) :
  wf a -> In c (columns a) \/ In c (columns b) -> i < nrows a ->
  cell (concat a b) c i = nth_error (column_or_na c a) i.
Proof.
  intros Hwf Hin Hi. unfold cell. rewrite column_concat by assumption.
  apply nth_error_app1. now rewrite length_column_or_na.
Qed.

Lemma cell_concat_right (c : string) (a b : frame) (k : nat) :
  wf a -> In c (columns a) \/ In c (columns b) ->
  cell (concat a b) c (nrows a + k) = nth_error (column_or_na c b) k.
Proof.
  intros Hwf Hin. unfold cell. rewrite column_concat by assumption.
  rewrite nth_error_app2; rewrite length_column_or_na by assumption;
    [ f_equal; lia | lia ].
Qed.

(* ================================================================== *)
(** * Exchange retrieval *)
(* ================================================================== *)

Lemma retrieve_exchanges_array w api_key s s1 r rows :
  _make_api_request w (exchanges_url api_key) s = (Ok (JArray (r :: rows)), s1) ->
  retrieve_exchanges w api_key s
  = (Ok (Some (concat (tagged_exchanges (r :: rows) (clock w (ticks s1)))
                      (manual_frame (clock w (S (ticks s1)))
                                    (clock w (S (S (ticks s1))))))),
     mkState (S (S (S (ticks s1)))) (logs s1)).
Proof.
  intros H. unfold retrieve_exchanges. rewrite (bind_ok _ _ _ _ _ H).
  reflexivity.
Qed.

Lemma retrieve_exchanges_falsy w api_key s s1 data :
  _make_api_request w (exchanges_url api_key) s = (Ok data, s1) ->
  truthy data = false ->
  retrieve_exchanges w api_key s = (Ok None, s1).
Proof.
  intros H Hf. unfold retrieve_exchanges. rewrite (bind_ok _ _ _ _ _ H).
  now rewrite Hf.
Qed.

(** On a truthy body the outcome is that of [pd.DataFrame]: a table of the
    tagged provider rows and the two manual rows, or the absent result after
    one ERROR record. *)
Lemma retrieve_exchanges_truthy w api_key s s1 data :
  _make_api_request w (exchanges_url api_key) s = (Ok data, s1) ->
  truthy data = true ->
  retrieve_exchanges w api_key s
  = match DataFrame data with
    | Ok df =>
        (Ok (Some (concat (tagged_frame df (clock w (ticks s1)))
                          (manual_frame (clock w (S (ticks s1)))
                                        (clock w (S (S (ticks s1))))))),
         mkState (S (S (S (ticks s1)))) (logs s1))
    | Raise e => (Ok None, logged s1 (exchanges_error e))
    end.
Proof.
  intros H Ht. unfold retrieve_exchanges. rewrite (bind_ok _ _ _ _ _ H).
  rewrite Ht. cbn [negb]. run.
  destruct (DataFrame data); reflexivity.
Qed.

Lemma wf_tagged_frame df t0 : wf df -> wf (tagged_frame df t0).
Proof.
  intros H. unfold tagged_frame. auto with frames.
Qed.

Lemma column_tagged_frame_source df t0 :
  column "Source" (tagged_frame df t0)
  = Some (repeat (VStr "EoDHD.com") (nrows df)).
Proof.
  unfold tagged_frame, setitem_scalar.
  rewrite column_setitem_other by discriminate.
  apply column_setitem_same.
Qed.

Lemma columns_tagged_frame df t0 k :
  In k (columns (tagged_frame df t0))
  <-> k = "Date_Updated" \/ k = "Source" \/ In k (columns df).
Proof.
  unfold tagged_frame, setitem_scalar, setitem, columns. cbn [cols].
  now rewrite !In_columns_set_col.
Qed.

Lemma wf_tagged_exchanges rows t0 : wf (tagged_exchanges rows t0).
Proof.
  unfold tagged_exchanges. auto with frames.
Qed.

Lemma column_tagged_source rows t0 :
  column "Source" (tagged_exchanges rows t0)
  = Some (repeat (VStr "EoDHD.com") (length rows)).
Proof.
  unfold tagged_exchanges, setitem_scalar.
  rewrite column_setitem_other by discriminate.
  apply column_setitem_same.
Qed.

Lemma columns_tagged rows t0 k :
  In k (columns (tagged_exchanges rows t0))
  <-> k = "Date_Updated" \/ k = "Source" \/ In k (record_columns rows).
Proof.
  unfold tagged_exchanges, setitem_scalar, setitem, columns. cbn [cols].
  rewrite !In_columns_set_col.
  change (map fst (cols (from_records rows))) with (columns (from_records rows)).
  now rewrite columns_from_records.
Qed.

(** A cell of a manual row in the combined table is the cell of the
    manual table, whatever the provider sent. *)
Lemma cell_manual_frame df t0 t1 t2 c k v :
  wf df ->
  nth_error (column_or_na c (manual_frame t1 t2)) k = Some v ->
  In c (columns (manual_frame t1 t2)) ->
  cell (concat (tagged_frame df t0) (manual_frame t1 t2)) c
       (nrows df + k) = Some v.
Proof.
  intros Hwf Hv Hin.
  change (nrows df) with (nrows (tagged_frame df t0)).
  rewrite cell_concat_right; auto using wf_tagged_frame.
Qed.

Lemma cell_manual rows t0 t1 t2 c k v :
  nth_error (column_or_na c (manual_frame t1 t2)) k = Some v ->
  In c (columns (manual_frame t1 t2)) ->
  cell (concat (tagged_exchanges rows t0) (manual_frame t1 t2)) c
       (length rows + k) = Some v.
Proof.
  apply (cell_manual_frame (from_records rows)), wf_from_records.
Qed.

Ltac manual_cell := apply cell_manual; [ reflexivity | cbn; tauto ].

Ltac manual_frame_cell :=
  apply cell_manual_frame; [ assumption | reflexivity | cbn; tauto ].

Lemma manual_rows_of_concat df t0 t1 t2 :
  wf df ->
  let t := concat (tagged_frame df t0) (manual_frame t1 t2) in
  manual_row t (nrows df) "NYSE" /\ manual_row t (nrows df + 1) "NASDAQ".
Proof.
  intros Hwf t. subst t. split.
  - rewrite <- (Nat.add_0_r (nrows df)).
    eexists. split; [ reflexivity | ].
    split; [ manual_frame_cell | ]. split; [ manual_frame_cell | ].
    repeat constructor; manual_frame_cell.
  - eexists. split; [ reflexivity | ].
    split; [ manual_frame_cell | ]. split; [ manual_frame_cell | ].
    repeat constructor; manual_frame_cell.
Qed.

(** C1.  Whenever exchange retrieval returns a table, pandas has built a
    frame from the response, with one row for each element when the
    response is an array of rows; the table has as many rows as that frame
    plus two; its first rows, the provider's, each carry Source
    ["EoDHD.com"]; and its last two rows are the NYSE and the NASDAQ entry
    of the static US-exchange lookup, each with Source ["Manual_Input"]. *)
Theorem retrieve_exchanges_rows w api_key s data s1 t s' :
  _make_api_request w (exchanges_url api_key) s = (Ok data, s1) ->
  retrieve_exchanges w api_key s = (Ok (Some t), s') ->
  exists df,
    DataFrame data = Ok df /\
    (forall rows, data = JArray rows -> nrows df = length rows) /\
    nrows t = nrows df + 2 /\
    (forall i, i < nrows df ->
       cell t "Source" i = Some (VStr "EoDHD.com")) /\
    manual_row t (nrows df) "NYSE" /\
    manual_row t (nrows df + 1) "NASDAQ".
Proof.
  intros Hreq Hres.
  destruct (truthy data) eqn:Ht.
  2: { rewrite (retrieve_exchanges_falsy _ _ _ _ _ Hreq Ht) in Hres.
       discriminate. }
  rewrite (retrieve_exchanges_truthy _ _ _ _ _ Hreq Ht) in Hres.
  destruct (DataFrame data) as [df | e] eqn:Hdf; [ | discriminate ].
  injection Hres as <- _.
  pose proof (wf_DataFrame _ _ Hdf) as Hwf.
  exists df. split; [ reflexivity | ]. split.
  { intros rows ->. injection Hdf as <-. reflexivity. }
  split; [ cbn; lia | ]. split.
  - intros i Hi.
    rewrite cell_concat_left;
      [ | now apply wf_tagged_frame | left; apply columns_tagged_frame; tauto
        | exact Hi ].
    unfold column_or_na. rewrite column_tagged_frame_source.
    now apply nth_error_repeat.
  - now apply manual_rows_of_concat.
Qed.

(** ** The request helper *)

Lemma make_api_request_ok w url s status data :
  http w url = Response status (Some data) ->
  status_passes status = true ->
  _make_api_request w url s = (Ok data, s).
Proof.
  intros Hw Hst. unfold _make_api_request, requests.get, requests.raise_for_status,
    requests.json. rewrite Hw. run. cbn.
  unfold status_passes in Hst. apply negb_true_iff in Hst. rewrite Hst.
  reflexivity.
Qed.

Ltac logged_failure :=
  eexists; split; [ | split; reflexivity ]; reflexivity.

(** Unless the parser crashes on the body, the helper returns: either the
    parsed body, leaving the state alone, or [None] after one error
    record. *)
Lemma make_api_request_returns w url s :
  parser_crash (http w url) = None ->
  exists data s1,
    _make_api_request w url s = (Ok data, s1) /\
    (s1 = s \/
     exists e, is_RequestException e = true /\ data = JNull /\
       s1 = mkState (ticks s)
              (logs s ++ [mkLog ERROR "API request failed: " (Some e) true])).
Proof.
  unfold _make_api_request, requests.get, requests.raise_for_status,
    requests.json, parser_crash, status_passes.
  destruct (http w url) as [| status [data |] | status c]; run; cbn.
  - intros _. do 2 eexists. split; [ reflexivity | right ]. logged_failure.
  - intros _. destruct ((400 <=? status)%Z && (status <? 600)%Z); cbn.
    + do 2 eexists. split; [ reflexivity | right ]. logged_failure.
    + do 2 eexists. split; [ reflexivity | now left ].
  - intros _. destruct ((400 <=? status)%Z && (status <? 600)%Z); cbn.
    + do 2 eexists. split; [ reflexivity | right ]. logged_failure.
    + do 2 eexists. split; [ reflexivity | right ]. logged_failure.
  - destruct ((400 <=? status)%Z && (status <? 600)%Z); cbn;
      [ intros _ | discriminate ].
    do 2 eexists. split; [ reflexivity | right ]. logged_failure.
Qed.

(** When the status passes and the parser crashes, the exception leaves the
    helper, whose handler takes request exceptions only; nothing is
    logged. *)
Lemma make_api_request_crash w url s e :
  parser_crash (http w url) = Some e ->
  _make_api_request w url s = (Raise e, s).
Proof.
  unfold _make_api_request, requests.get, requests.raise_for_status,
    requests.json, parser_crash, status_passes.
  destruct (http w url) as [| status [data |] | status c]; try discriminate.
  run. cbn.
  destruct ((400 <=? status)%Z && (status <? 600)%Z); cbn;
    [ discriminate | ].
  intros [= <-]. now destruct c.
Qed.

(** C1, at a concrete response of one provider row. *)
Lemma retrieve_exchanges_rows_witness :
  _make_api_request exchanges_demo_world (exchanges_url "demo") s0
    = (Ok (JArray [exchange_row_demo]), s0) /\
  retrieve_exchanges exchanges_demo_world "demo" s0
    = (Ok (Some exchanges_demo_table), mkState 3 []) /\
  exists df,
    DataFrame (JArray [exchange_row_demo]) = Ok df /\
    (forall rows, JArray [exchange_row_demo] = JArray rows ->
       nrows df = length rows) /\
    nrows exchanges_demo_table = nrows df + 2 /\
    (forall i, i < nrows df ->
       cell exchanges_demo_table "Source" i = Some (VStr "EoDHD.com")) /\
    manual_row exchanges_demo_table (nrows df) "NYSE" /\
    manual_row exchanges_demo_table (nrows df + 1) "NASDAQ".
Proof.
  split; [ reflexivity | ]. split; [ reflexivity | ].
  apply (retrieve_exchanges_rows exchanges_demo_world "demo" s0
           (JArray [exchange_row_demo]) s0
           exchanges_demo_table (mkState 3 [])); reflexivity.
Defined.

(** C2 as stated fails: on an empty array the retrieval gives no table at
    all, so in particular no table of two rows. *)
Lemma retrieve_exchanges_empty_counterexample :
  retrieve_exchanges (serving (JArray [])) "demo" s0 = (Ok None, s0) /\
  ~ (exists t s', retrieve_exchanges (serving (JArray [])) "demo" s0
                  = (Ok (Some t), s') /\ nrows t = 2).
Proof.
  split; [ reflexivity | ].
  intros [t [s' [H _]]]. discriminate H.
Qed.

(** C2, amended.  When the provider answers with an empty body (an empty
    array, an empty object, null, or another falsy value), exchange
    retrieval returns the absent result: the manual rows are not added and
    nothing is logged. *)
Theorem retrieve_exchanges_empty_absent w api_key s status data :
  http w (exchanges_url api_key) = Response status (Some data) ->
  status_passes status = true ->
  truthy data = false ->
  retrieve_exchanges w api_key s = (Ok None, s).
Proof.
  intros Hw Hst Hf. unfold retrieve_exchanges.
  rewrite (bind_ok _ _ _ _ _ (make_api_request_ok _ _ s _ _ Hw Hst)).
  now rewrite Hf.
Qed.

Lemma retrieve_exchanges_empty_absent_witness :
  http (serving (JArray [])) (exchanges_url "demo")
    = Response 200 (Some (JArray [])) /\
  status_passes 200 = true /\
  truthy (JArray []) = false /\
  retrieve_exchanges (serving (JArray [])) "demo" s0 = (Ok None, s0).
Proof.
  split; [ reflexivity | ]. split; [ reflexivity | ]. split; [ reflexivity | ].
  apply (retrieve_exchanges_empty_absent (serving (JArray [])) "demo" s0 200
           (JArray [])); reflexivity.
Defined.

(* ================================================================== *)
(** * Ticker retrieval *)
(* ================================================================== *)

Lemma retrieve_tickers_array w api_key exchange s s1 r rows :
  _make_api_request w (tickers_url api_key exchange) s
    = (Ok (JArray (r :: rows)), s1) ->
  retrieve_tickers w api_key exchange s
  = match reshape_tickers exchange (clock w (ticks s1)) (r :: rows) with
    | Ok out => (Ok (Some out), mkState (S (ticks s1)) (logs s1))
    | Raise e =>
        (Ok None,
         mkState (S (ticks s1))
           (logs s1 ++ [mkLog ERROR
                          ("Failed to process ticker data for "
                             ++ exchange ++ ": ") (Some e) false]))
    end.
Proof.
  intros H. unfold retrieve_tickers. rewrite (bind_ok _ _ _ _ _ H).
  cbn [truthy is_list negb orb DataFrame]. unfold reshape_tickers. run.
  cbn [DataFrame].
  destruct (getitem "Code" _); [ | reflexivity ].
  destruct (series_add _ _); [ | reflexivity ].
  destruct (getitem "Exchange" _); [ | reflexivity ].
  destruct (select _ _); reflexivity.
Qed.

(** The guard: a falsy body and a body that is no list give the absent
    result at once. *)
Lemma retrieve_tickers_guarded w api_key exchange s s1 data :
  _make_api_request w (tickers_url api_key exchange) s = (Ok data, s1) ->
  truthy data = false \/ is_list data = false ->
  retrieve_tickers w api_key exchange s = (Ok None, s1).
Proof.
  intros H Hg. unfold retrieve_tickers. rewrite (bind_ok _ _ _ _ _ H).
  destruct Hg as [-> | ->]; [ reflexivity | ].
  now rewrite orb_true_r.
Qed.


(** ** Series, selection *)

Lemma series_add_nth (vs ids : list value) (suffix : string) :
  series_add vs suffix = Ok ids ->
  length ids = length vs /\
  forall i v, nth_error vs i = Some v ->
    (exists c, v = VStr c /\ nth_error ids i = Some (VStr (c ++ suffix)))
    \/ (v = VNA /\ nth_error ids i = Some VNA).
Proof.
  revert ids. induction vs as [| v0 vs IH]; cbn; intros ids H.
  - injection H as <-. split; [ reflexivity | ]. now intros [| i] v.
  - destruct (add_str suffix v0) as [v0' |] eqn:E0; [ | discriminate ].
    destruct (series_add vs suffix) as [r' |]; [ | discriminate ].
    injection H as <-. destruct (IH r' eq_refl) as [Hlen Hnth].
    split; [ cbn; now rewrite Hlen | ].
    intros [| i] v; cbn; [ | apply Hnth ].
    intros [= <-]. destruct v0; cbn in E0; try discriminate;
      injection E0 as <-; [ now right | left; eauto ].
Qed.

(** [series + suffix] succeeds on a column of strings and missing values. *)
Lemma series_add_succeeds (vs : list value) (suffix : string) :
  Forall str_or_missing vs ->
  exists ids, series_add vs suffix = Ok ids.
Proof.
  induction 1 as [| v vs Hv _ [ids IH]]; cbn; [ now eexists | ].
  rewrite IH. destruct Hv as [-> | [c ->]]; cbn; now eexists.
Qed.

Lemma select_cols_spec (names : list string) (df : frame) l :
  select_cols names df = Ok l ->
  map fst l = names /\
  forall c, In c names ->
    exists vs, column c df = Some vs /\
               find (fun kv => fst kv =? c) l = Some (c, vs).
Proof.
  revert l. induction names as [| k names IH]; cbn; intros l H.
  - injection H as <-. split; [ reflexivity | intros c [] ].
  - unfold getitem in H. destruct (column k df) as [vs |] eqn:Ek; [ | discriminate ].
    destruct (select_cols names df) as [l' |]; [ | discriminate ].
    injection H as <-. destruct (IH l' eq_refl) as [Hn Hc].
    split; [ cbn; now rewrite Hn | ].
    intros c Hin. cbn. destruct (String.eqb_spec k c) as [-> | Hne].
    + eauto.
    + destruct Hin as [-> | Hin]; [ contradiction | now apply Hc ].
Qed.

Lemma select_spec (names : list string) (df out : frame) :
  select names df = Ok out ->
  nrows out = nrows df /\ columns out = names /\
  forall c, In c names -> column c out = column c df /\ column c df <> None.
Proof.
  unfold select. destruct (select_cols names df) as [l |] eqn:E; [ | discriminate ].
  intros [= <-]. destruct (select_cols_spec _ _ _ E) as [Hn Hc].
  split; [ reflexivity | ]. split; [ exact Hn | ].
  intros c Hin. destruct (Hc c Hin) as [vs [H1 H2]].
  unfold column at 1. cbn [cols]. rewrite H2, H1. cbn. split; [ reflexivity | discriminate ].
Qed.

Lemma select_succeeds (names : list string) (df : frame) :
  Forall (fun c => column c df <> None) names ->
  exists out, select names df = Ok out.
Proof.
  intros H. unfold select.
  assert (exists l, select_cols names df = Ok l) as [l ->]; [ | now eexists ].
  induction H as [| c names Hc _ [l IH]]; cbn; [ now eexists | ].
  unfold getitem. destruct (column c df); [ | contradiction ].
  rewrite IH. now eexists.
Qed.







(** C3 as stated fails: a row whose Code is null, next to a row whose Code
    is a string, is kept in the table, and its Ticker_ID is missing, not a
    string built from the Code and the exchange. *)
Lemma retrieve_tickers_ids_counterexample :
  let w := serving (JArray [ticker_row_demo; ticker_row_null_code]) in
  retrieve_tickers w "demo" "LSE" s0
    = (Ok (Some tickers_null_code_table), mkState 1 []) /\
  cell tickers_null_code_table "Ticker_ID" 0 = Some (VStr "VOD_LSE") /\
  field "Code" ticker_row_null_code = VNA /\
  cell tickers_null_code_table "Ticker_ID" 1 = Some VNA /\
  ~ (exists c, cell tickers_null_code_table "Ticker_ID" 1 = Some (VStr c)).
Proof.
  cbv zeta. repeat split; try reflexivity.
  intros [c H]. discriminate H.
Qed.



(* ================================================================== *)
(** * Positional relabelling *)
(* ================================================================== *)

Lemma find_combine (names : list string) (l : list (list value)) j c :
  NoDup names -> length names = length l -> nth_error names j = Some c ->
  find (fun kv => fst kv =? c) (combine names l)
  = option_map (pair c) (nth_error l j).
Proof.
  intros Hnd. revert l j. induction Hnd as [| k names Hk Hnd IH];
    intros l j Hlen Hj; [ now destruct j | ].
  destruct l as [| x l]; [ discriminate | ]. injection Hlen as Hlen.
  destruct j as [| j]; cbn in *.
  - injection Hj as ->. now rewrite String.eqb_refl.
  - destruct (String.eqb_spec k c) as [-> | Hne].
    + apply nth_error_In in Hj. contradiction.
    + now apply IH.
Qed.

Lemma set_columns_spec (names : list string) (df df' : frame) :
  set_columns names df = Ok df' ->
  length names = length (cols df) /\ nrows df' = nrows df /\
  columns df' = names /\
  (NoDup names -> forall j c, nth_error names j = Some c ->
     column c df' = option_map snd (nth_error (cols df) j)).
Proof.
  unfold set_columns.
  destruct (Nat.eqb_spec (length names) (length (cols df))) as [Hlen |];
    [ | discriminate ].
  intros [= <-]. split; [ assumption | ]. split; [ reflexivity | ]. split.
  - unfold columns. cbn [cols]. revert Hlen.
    generalize (cols df) as l. induction names as [| k names IH];
      intros [| x l] H; try discriminate; [ reflexivity | ].
    cbn. f_equal. apply IH. now injection H.
  - intros Hnd j c Hj. unfold column. cbn [cols].
    rewrite (find_combine _ _ j) by (rewrite ?length_map; assumption).
    rewrite nth_error_map. now destruct (nth_error (cols df) j).
Qed.

Lemma set_columns_mismatch (names : list string) (df : frame) :
  length names <> length (cols df) -> set_columns names df = Raise ValueError.
Proof.
  intros H. unfold set_columns. apply Nat.eqb_neq in H. now rewrite H.
Qed.

Lemma column_In_columns (c : string) (df : frame) :
  column c df <> None <-> In c (columns df).
Proof.
  unfold column, columns. split.
  - destruct (find _ (cols df)) as [kv |] eqn:E; [ | tauto ]. intros _.
    apply find_some in E. destruct E as [Hin Heq]. apply String.eqb_eq in Heq.
    subst c. now apply in_map.
  - intros Hin. apply in_map_iff in Hin. destruct Hin as [kv [<- Hin]].
    destruct (find _ (cols df)) eqn:E; [ discriminate | ].
    apply (find_none _ _ E) in Hin. now rewrite String.eqb_refl in Hin.
Qed.

Lemma NoDup_PRICE_COLUMNS : NoDup PRICE_COLUMNS.
Proof.
  unfold PRICE_COLUMNS.
  repeat (constructor; [ cbn; intuition discriminate | ]). constructor.
Qed.

(** The sorted layout can only be selected once all eight labels are
    there. *)
Lemma Ticker_ID_in_prefix (n : nat) :
  In "Ticker_ID" (firstn n PRICE_COLUMNS) -> 8 <= n.
Proof.
  do 8 (destruct n as [| n]; [ cbn; intuition discriminate | ]). lia.
Qed.

(* ================================================================== *)
(** * Historical prices *)
(* ================================================================== *)

Lemma retrieve_historical_no_body w exchange ticker date_to eodhd_api s :
  (http w (historical_url exchange ticker date_to eodhd_api) = NoResponse \/
   (exists status,
      http w (historical_url exchange ticker date_to eodhd_api)
        = Response status None) \/
   exists status c,
     http w (historical_url exchange ticker date_to eodhd_api)
       = Unreadable status c) ->
  exists e,
    retrieve_historical_price w exchange ticker date_to eodhd_api s
    = (Ok None, logged s (historical_error ticker e)).
Proof.
  unfold retrieve_historical_price, requests.get, requests.json.
  intros [Hw | [[status Hw] | [status [c Hw]]]]; rewrite Hw; run;
    eexists; reflexivity.
Qed.

(** What a successful reshaping looks like: eight columns went in, the
    result has the sorted layout, and the column labelled with the [j]-th
    name of [PRICE_COLUMNS] is the [j]-th column that went in. *)
Lemma reshape_historical_spec exchange ticker df t :
  reshape_historical exchange ticker df = Ok t ->
  let id := VStr (replace "." "_" (eod_ticker ticker exchange)) in
  let df1 := setitem_scalar "Ticker_ID" id df in
  length (cols df1) = 8 /\ nrows t = nrows df /\
  columns t = PRICE_COLUMNS_SORTED /\
  forall j c, nth_error PRICE_COLUMNS j = Some c ->
    column c t = option_map snd (nth_error (cols df1) j).
Proof.
  intros H id df1. unfold reshape_historical in H. fold id df1 in H.
  destruct (set_columns _ df1) as [df2 |] eqn:E2; [ | discriminate ].
  apply set_columns_spec in E2. destruct E2 as [Hlen [Hn2 [Hc2 Hcol2]]].
  apply select_spec in H. destruct H as [Hn [Hc Hcol]].
  assert (H8 : length (cols df1) = 8).
  { rewrite length_firstn in Hlen. cbn [length PRICE_COLUMNS] in Hlen.
    destruct (Hcol "Ticker_ID") as [_ Hin]; [ cbn; tauto | ].
    apply column_In_columns in Hin. rewrite Hc2 in Hin.
    apply Ticker_ID_in_prefix in Hin. lia. }
  split; [ exact H8 | ]. split; [ now rewrite Hn, Hn2 | ]. split; [ exact Hc | ].
  intros j c Hj. rewrite H8 in Hcol2. cbn [firstn PRICE_COLUMNS] in Hcol2.
  destruct (Hcol c) as [-> _].
  - apply nth_error_In in Hj. cbn in Hj |- *. tauto.
  - apply Hcol2; [ apply NoDup_PRICE_COLUMNS | exact Hj ].
Qed.

(** More than seven columns and a fresh Ticker_ID make more than eight. *)
Lemma too_wide_after_append (df : frame) (v : value) :
  7 < length (columns df) -> ~ In "Ticker_ID" (columns df) ->
  8 < length (columns (setitem_scalar "Ticker_ID" v df)).
Proof.
  intros H7 Hfresh. unfold setitem_scalar, setitem, columns in *.
  cbn [cols]. rewrite set_col_fresh by exact Hfresh.
  rewrite length_map, length_app in *. cbn. lia.
Qed.

(** ** A call whose GET was answered with a JSON body

    The function does not look at the status of the reply. *)

Section HistoricalResponse.

Variable w : world.
Variables exchange ticker date_to eodhd_api : string.
Variable s : state.
Variable status : Z.
Variable data : json.

Hypothesis Hresponse :
  http w (historical_url exchange ticker date_to eodhd_api)
  = Response status (Some data).

Lemma retrieve_historical_response :
  retrieve_historical_price w exchange ticker date_to eodhd_api s
  = match DataFrame data with
    | Raise e => (Ok None, logged s (historical_error ticker e))
    | Ok df =>
        if empty df then (Ok None, logged s (historical_debug exchange ticker))
        else match reshape_historical exchange ticker df with
             | Ok out => (Ok (Some out), s)
             | Raise e => (Ok None, logged s (historical_error ticker e))
             end
    end.
Proof.
  unfold retrieve_historical_price, requests.get, requests.json.
  rewrite Hresponse. run. cbn [requests.content].
  destruct (DataFrame data) as [df |]; [ | reflexivity ].
  destruct (empty df); [ reflexivity | ].
  unfold reshape_historical.
  destruct (set_columns _ _); [ | reflexivity ].
  destruct (select _ _); reflexivity.
Qed.

(** C4, amended.  For every historical-price retrieval that returns a
    table from a response with no field of its own named Ticker_ID, the
    table has the response's rows and every row's Ticker_ID is the provider
    ticker identifier (ticker, a period, exchange) with every period
    replaced by an underscore. *)
Theorem retrieve_historical_ticker_id df t s' :
  DataFrame data = Ok df ->
  ~ In "Ticker_ID" (columns df) ->
  retrieve_historical_price w exchange ticker date_to eodhd_api s
    = (Ok (Some t), s') ->
  nrows t = nrows df /\
  forall i, i < nrows t ->
    cell t "Ticker_ID" i
    = Some (VStr (replace "." "_" (ticker ++ "." ++ exchange))).
Proof.
  intros Hdf Hfresh Hres.
  rewrite retrieve_historical_response, Hdf in Hres.
  destruct (empty df); [ discriminate | ].
  destruct (reshape_historical exchange ticker df) as [out |] eqn:E;
    [ | discriminate ].
  injection Hres as <- _.
  destruct (reshape_historical_spec _ _ _ _ E) as [H8 [Hn [_ Hcol]]].
  split; [ exact Hn | ]. intros i Hi.
  unfold cell. rewrite (Hcol 7 "Ticker_ID" eq_refl).
  unfold setitem_scalar, setitem in H8 |- *. cbn [cols] in H8 |- *.
  rewrite set_col_fresh in H8 |- * by exact Hfresh.
  rewrite length_app in H8. cbn [length] in H8.
  rewrite nth_error_app2 by lia.
  replace (7 - length (cols df)) with 0 by lia. cbn.
  apply nth_error_repeat. lia.
Qed.

(** C7.  When the response of a historical-price retrieval parses to an
    empty frame, the function writes one DEBUG record, no ERROR record,
    raises nothing and returns the absent result. *)
Theorem retrieve_historical_empty df :
  DataFrame data = Ok df ->
  empty df = true ->
  retrieve_historical_price w exchange ticker date_to eodhd_api s
  = (Ok None,
     mkState (ticks s)
       (logs s ++ [mkLog DEBUG
                     ("No data returned for Ticker: " ++ ticker
                        ++ " on Exchange: " ++ exchange) None false])).
Proof.
  intros Hdf He. now rewrite retrieve_historical_response, Hdf, He.
Qed.

(** C9, amended.  When the rows of a non-empty historical response carry
    more than seven fields, none of them named Ticker_ID, the table has more
    than eight columns once Ticker_ID is appended and the positional
    relabelling raises; the exception is caught, one ERROR record is
    written, and the function returns the absent result. *)
Theorem retrieve_historical_too_wide df :
  DataFrame data = Ok df ->
  empty df = false ->
  7 < length (columns df) ->
  ~ In "Ticker_ID" (columns df) ->
  let df1 := setitem_scalar "Ticker_ID"
               (VStr (replace "." "_" (eod_ticker ticker exchange))) df in
  8 < length (columns df1) /\
  set_columns (firstn (length (cols df1)) PRICE_COLUMNS) df1
    = Raise ValueError /\
  retrieve_historical_price w exchange ticker date_to eodhd_api s
  = (Ok None,
     mkState (ticks s)
       (logs s ++ [mkLog ERROR
                     ("Updating historical price data -Ticker: "
                        ++ ticker ++ " -  ") (Some ValueError) false])).
Proof.
  intros Hdf He H7 Hfresh df1.
  assert (H8 : 8 < length (columns df1))
    by (now apply too_wide_after_append).
  assert (Hraise : set_columns (firstn (length (cols df1)) PRICE_COLUMNS) df1
                   = Raise ValueError).
  { apply set_columns_mismatch. unfold columns in H8.
    rewrite length_map in H8. rewrite length_firstn. cbn [length PRICE_COLUMNS].
    lia. }
  split; [ exact H8 | ]. split; [ exact Hraise | ].
  rewrite retrieve_historical_response, Hdf, He.
  unfold reshape_historical. fold df1. now rewrite Hraise.
Qed.

End HistoricalResponse.

(** C4 as stated fails: when the provider's rows already carry a field
    named Ticker_ID ahead of seven others, the synthesized identifier
    overwrites that first column, the positional relabelling calls it Date,
    and the column that ends up labelled Ticker_ID is the provider's
    eighth. *)
Lemma retrieve_historical_ticker_id_counterexample :
  exists t,
    retrieve_historical_price (serving (JArray [bar_with_own_id]))
      "US" "AAPL" "2024-01-02" "demo" s0 = (Ok (Some t), s0) /\
    cell t "Ticker_ID" 0 = Some (VNum 82488700) /\
    cell t "Date" 0 = Some (VStr "AAPL_US") /\
    cell t "Ticker_ID" 0
      <> Some (VStr (replace "." "_" (eod_ticker "AAPL" "US"))).
Proof.
  eexists. split; [ reflexivity | ]. repeat split. discriminate.
Qed.

Lemma retrieve_historical_ticker_id_witness :
  http (serving (JArray [bar_demo]))
       (historical_url "US" "AAPL" "2024-01-02" "demo")
    = Response 200 (Some (JArray [bar_demo])) /\
  DataFrame (JArray [bar_demo]) = Ok (from_records [bar_demo]) /\
  ~ In "Ticker_ID" (columns (from_records [bar_demo])) /\
  retrieve_historical_price (serving (JArray [bar_demo]))
    "US" "AAPL" "2024-01-02" "demo" s0
    = (Ok (Some historical_demo_table), s0) /\
  nrows historical_demo_table = nrows (from_records [bar_demo]) /\
  forall i, i < nrows historical_demo_table ->
    cell historical_demo_table "Ticker_ID" i
    = Some (VStr (replace "." "_" ("AAPL" ++ "." ++ "US"))).
Proof.
  assert (Hfresh : ~ In "Ticker_ID" (columns (from_records [bar_demo])))
    by (cbn; intuition discriminate).
  split; [ reflexivity | ]. split; [ reflexivity | ].
  split; [ exact Hfresh | ]. split; [ reflexivity | ].
  apply (retrieve_historical_ticker_id (serving (JArray [bar_demo]))
           "US" "AAPL" "2024-01-02" "demo" s0 200 (JArray [bar_demo])
           eq_refl (from_records [bar_demo]) historical_demo_table s0);
    [ reflexivity | exact Hfresh | reflexivity ].
Defined.

Lemma retrieve_historical_empty_witness :
  http (serving (JArray [])) (historical_url "US" "ZZZZ" "2024-01-02" "demo")
    = Response 200 (Some (JArray [])) /\
  DataFrame (JArray []) = Ok (from_records []) /\
  empty (from_records []) = true /\
  retrieve_historical_price (serving (JArray []))
    "US" "ZZZZ" "2024-01-02" "demo" s0
  = (Ok None,
     mkState 0
       [mkLog DEBUG "No data returned for Ticker: ZZZZ on Exchange: US"
          None false]).
Proof.
  split; [ reflexivity | ]. split; [ reflexivity | ]. split; [ reflexivity | ].
  apply (retrieve_historical_empty (serving (JArray []))
           "US" "ZZZZ" "2024-01-02" "demo" s0 200 (JArray []) eq_refl
           (from_records [])); reflexivity.
Defined.

(** C9 as stated fails: eight fields, one of them named Ticker_ID, make
    eight columns and not nine, the relabelling goes through, and a table is
    returned whose Date column holds the synthesized identifier. *)
Lemma retrieve_historical_too_wide_counterexample :
  7 < length (columns (from_records [bar_with_own_id])) /\
  exists t,
    retrieve_historical_price (serving (JArray [bar_with_own_id]))
      "US" "AAPL" "2024-01-02" "demo" s0 = (Ok (Some t), s0) /\
    cell t "Date" 0 = Some (VStr "AAPL_US").
Proof.
  split; [ cbn; lia | ]. eexists. split; reflexivity.
Qed.

Lemma retrieve_historical_too_wide_witness :
  http (serving (JArray [bar_too_wide]))
       (historical_url "US" "AAPL" "2024-01-02" "demo")
    = Response 200 (Some (JArray [bar_too_wide])) /\
  DataFrame (JArray [bar_too_wide]) = Ok (from_records [bar_too_wide]) /\
  empty (from_records [bar_too_wide]) = false /\
  7 < length (columns (from_records [bar_too_wide])) /\
  ~ In "Ticker_ID" (columns (from_records [bar_too_wide])) /\
  retrieve_historical_price (serving (JArray [bar_too_wide]))
    "US" "AAPL" "2024-01-02" "demo" s0
  = (Ok None,
     mkState 0
       [mkLog ERROR "Updating historical price data -Ticker: AAPL -  "
          (Some ValueError) false]).
Proof.
  assert (Hfresh : ~ In "Ticker_ID" (columns (from_records [bar_too_wide])))
    by (cbn; intuition discriminate).
  assert (H7 : 7 < length (columns (from_records [bar_too_wide])))
    by (cbn; lia).
  split; [ reflexivity | ]. split; [ reflexivity | ]. split; [ reflexivity | ].
  split; [ exact H7 | ]. split; [ exact Hfresh | ].
  exact (proj2 (proj2
    (retrieve_historical_too_wide (serving (JArray [bar_too_wide]))
       "US" "AAPL" "2024-01-02" "demo" s0 200 (JArray [bar_too_wide])
       eq_refl (from_records [bar_too_wide]) eq_refl eq_refl H7 Hfresh))).
Defined.

(* ================================================================== *)
(** * Daily prices *)
(* ================================================================== *)

Lemma retrieve_daily_falsy w exchange api_key s s1 data :
  _make_api_request w (daily_url exchange api_key) s = (Ok data, s1) ->
  truthy data = false ->
  retrieve_daily_price w exchange api_key s
  = (Ok None, logged s1 (daily_warning exchange)).
Proof.
  intros H Hf. unfold retrieve_daily_price. rewrite (bind_ok _ _ _ _ _ H).
  now rewrite Hf.
Qed.

Lemma retrieve_daily_truthy w exchange api_key s s1 data :
  _make_api_request w (daily_url exchange api_key) s = (Ok data, s1) ->
  truthy data = true ->
  retrieve_daily_price w exchange api_key s
  = match DataFrame data with
    | Raise e => (Ok None, logged s1 (daily_error exchange e))
    | Ok df =>
        match reshape_daily exchange df with
        | Ok out => (Ok (Some out), s1)
        | Raise e => (Ok None, logged s1 (daily_error exchange e))
        end
    end.
Proof.
  intros H Ht. unfold retrieve_daily_price. rewrite (bind_ok _ _ _ _ _ H).
  rewrite Ht. cbn [negb]. run. unfold reshape_daily.
  destruct (DataFrame data) as [df |]; [ | reflexivity ].
  destruct (getitem "code" df); [ | reflexivity ].
  destruct (series_add _ _); [ | reflexivity ].
  destruct (drop _ _); [ | reflexivity ].
  destruct (set_columns _ _); [ | reflexivity ].
  destruct (select PRICE_COLUMNS_SORTED _); [ | reflexivity ].
  destruct (select PRICE_COLUMNS _); reflexivity.
Qed.

(** ** Dropping columns *)

Lemma drop_spec (labels : list string) (df df' : frame) :
  drop labels df = Ok df' ->
  (forall c, In c labels -> In c (columns df)) /\
  nrows df' = nrows df /\
  cols df' = filter (fun kv => negb (existsb (String.eqb (fst kv)) labels))
                    (cols df).
Proof.
  unfold drop. destruct (find _ labels) eqn:E; [ discriminate | ].
  intros [= <-]. split; [ | split; reflexivity ].
  intros c Hin. apply (find_none _ _ E) in Hin.
  apply negb_false_iff in Hin. now apply existsb_eqb_In.
Qed.

Lemma drop_succeeds (labels : list string) (df : frame) :
  (forall c, In c labels -> In c (columns df)) ->
  drop labels df
  = Ok (mkFrame (nrows df)
          (filter (fun kv => negb (existsb (String.eqb (fst kv)) labels))
                  (cols df))).
Proof.
  intros H. unfold drop. destruct (find _ labels) as [c |] eqn:E; [ | reflexivity ].
  apply find_some in E. destruct E as [Hin Hc].
  apply negb_true_iff, existsb_eqb_not_In in Hc. now destruct Hc; apply H.
Qed.

Lemma filter_absent_label (a : string) (l : list (string * list value)) :
  ~ In a (map fst l) -> filter (fun kv => negb (fst kv =? a)) l = l.
Proof.
  induction l as [| [k x] l IH]; cbn; intros H; [ reflexivity | ].
  destruct (String.eqb_spec k a) as [-> | _]; [ tauto | ].
  cbn. f_equal. apply IH. tauto.
Qed.

Lemma length_filter_label (a : string) (l : list (string * list value)) :
  NoDup (map fst l) -> In a (map fst l) ->
  S (length (filter (fun kv => negb (fst kv =? a)) l)) = length l.
Proof.
  induction l as [| [k x] l IH]; cbn; intros Hnd Hin; [ destruct Hin | ].
  inversion Hnd as [| ? ? Hk Hnd']; subst.
  destruct (String.eqb_spec k a) as [-> | Hne]; cbn.
  - now rewrite filter_absent_label.
  - f_equal. apply IH; [ assumption | ]. destruct Hin; [ contradiction | assumption ].
Qed.

Lemma In_filter_label (a c : string) (l : list (string * list value)) :
  In c (map fst (filter (fun kv => negb (fst kv =? a)) l))
  <-> In c (map fst l) /\ c <> a.
Proof.
  rewrite !in_map_iff. split.
  - intros [kv [<- Hin]]. apply filter_In in Hin. destruct Hin as [Hin Hne].
    apply negb_true_iff, String.eqb_neq in Hne. eauto.
  - intros [[kv [<- Hin]] Hne]. exists kv. split; [ reflexivity | ].
    apply filter_In. split; [ assumption | ].
    now apply negb_true_iff, String.eqb_neq.
Qed.

Lemma NoDup_filter_label (a : string) (l : list (string * list value)) :
  NoDup (map fst l) -> NoDup (map fst (filter (fun kv => negb (fst kv =? a)) l)).
Proof.
  induction l as [| [k x] l IH]; cbn; intros Hnd; [ constructor | ].
  inversion Hnd as [| ? ? Hk Hnd']; subst.
  destruct (k =? a); cbn; [ now apply IH | ].
  constructor; [ | now apply IH ].
  intros Hin. apply In_filter_label in Hin. tauto.
Qed.

Lemma filter_two_labels (a b : string) (l : list (string * list value)) :
  filter (fun kv => negb (existsb (String.eqb (fst kv)) [a; b])) l
  = filter (fun kv => negb (fst kv =? b))
      (filter (fun kv => negb (fst kv =? a)) l).
Proof.
  induction l as [| [k x] l IH]; cbn; [ reflexivity | ].
  rewrite orb_false_r.
  destruct (k =? a); cbn; [ exact IH | ].
  destruct (k =? b); cbn; [ exact IH | now f_equal ].
Qed.

(** Dropping two distinct labels of a frame without duplicate labels
    removes exactly two columns. *)
Lemma length_filter_two_labels (a b : string) (l : list (string * list value)) :
  NoDup (map fst l) -> In a (map fst l) -> In b (map fst l) -> a <> b ->
  S (S (length (filter
                  (fun kv => negb (existsb (String.eqb (fst kv)) [a; b])) l)))
  = length l.
Proof.
  intros Hnd Ha Hb Hab. rewrite filter_two_labels.
  rewrite length_filter_label.
  - now apply length_filter_label.
  - now apply NoDup_filter_label.
  - apply In_filter_label. split; [ assumption | congruence ].
Qed.

Lemma NoDup_columns_from_records (rows : list dict) :
  NoDup (map fst (cols (from_records rows))).
Proof.
  change (NoDup (columns (from_records rows))).
  rewrite columns_from_records. apply NoDup_record_columns.
Qed.

(** ** The shape of a successful daily reshaping *)

Lemma reshape_daily_spec exchange df t :
  reshape_daily exchange df = Ok t ->
  exists code ids left sorted,
    column "code" df = Some code /\
    series_add code ("_" ++ exchange) = Ok ids /\
    drop ["code"; "exchange_short_name"] (setitem "Ticker_ID" ids df)
      = Ok left /\
    length (cols left) = 8 /\
    columns sorted = PRICE_COLUMNS_SORTED /\
    select PRICE_COLUMNS sorted = Ok t /\
    nrows t = nrows df /\
    columns t = PRICE_COLUMNS /\
    forall j c, nth_error PRICE_COLUMNS j = Some c ->
      column c t = option_map snd (nth_error (cols left) j).
Proof.
  unfold reshape_daily, getitem. intros H.
  destruct (column "code" df) as [code |] eqn:Ecode; [ | discriminate ].
  destruct (series_add _ _) as [ids |] eqn:Eids; [ | discriminate ].
  destruct (drop _ _) as [left |] eqn:Ed; [ | discriminate ].
  destruct (set_columns _ left) as [df3 |] eqn:E3; [ | discriminate ].
  destruct (select PRICE_COLUMNS_SORTED df3) as [sorted |] eqn:E4;
    [ | discriminate ].
  exists code, ids, left, sorted.
  apply set_columns_spec in E3. destruct E3 as [Hlen [Hn3 [_ Hcol3]]].
  apply select_spec in E4. destruct E4 as [Hn4 [Hc4 Hcol4]].
  pose proof (select_spec _ _ _ H) as [Hn [Hc Hcol]].
  pose proof (drop_spec _ _ _ Ed) as [_ [Hnl _]].
  split; [ reflexivity | ]. split; [ exact Eids | ]. split; [ exact Ed | ].
  split; [ now symmetry | ]. split; [ exact Hc4 | ]. split; [ exact H | ].
  split; [ now rewrite Hn, Hn4, Hn3, Hnl | ]. split; [ exact Hc | ].
  intros j c Hj.
  assert (Hin : In c PRICE_COLUMNS) by (eapply nth_error_In; eassumption).
  destruct (Hcol c Hin) as [-> _].
  destruct (Hcol4 c) as [-> _]; [ cbn in Hin |- *; tauto | ].
  apply Hcol3; [ apply NoDup_PRICE_COLUMNS | exact Hj ].
Qed.

(** With eight columns left, the relabelling and both projections go
    through. *)
Lemma relabel_and_project (left : frame) :
  length (cols left) = 8 ->
  exists df3 sorted t,
    set_columns PRICE_COLUMNS left = Ok df3 /\
    select PRICE_COLUMNS_SORTED df3 = Ok sorted /\
    select PRICE_COLUMNS sorted = Ok t.
Proof.
  intros H8.
  destruct (set_columns PRICE_COLUMNS left) as [df3 |] eqn:E3.
  2:{ unfold set_columns in E3. rewrite H8 in E3. discriminate. }
  pose proof (set_columns_spec _ _ _ E3) as [_ [_ [Hc3 _]]].
  destruct (select_succeeds PRICE_COLUMNS_SORTED df3) as [sorted E4].
  { apply Forall_forall. intros c Hin. apply column_In_columns.
    rewrite Hc3. cbn in Hin |- *. tauto. }
  pose proof (select_spec _ _ _ E4) as [_ [Hc4 _]].
  destruct (select_succeeds PRICE_COLUMNS sorted) as [t E5].
  { apply Forall_forall. intros c Hin. apply column_In_columns.
    rewrite Hc4. cbn in Hin |- *. tauto. }
  now exists df3, sorted, t.
Qed.

(** The columns left after adding a fresh Ticker_ID and dropping the two
    provider labels: the provider's other columns, then Ticker_ID. *)
Lemma cols_left_fresh (df left : frame) (ids : list value) :
  ~ In "Ticker_ID" (columns df) ->
  drop ["code"; "exchange_short_name"] (setitem "Ticker_ID" ids df) = Ok left ->
  In "code" (columns df) /\ In "exchange_short_name" (columns df) /\
  cols left
  = (filter (fun kv => negb (existsb (String.eqb (fst kv))
                                     ["code"; "exchange_short_name"]))
            (cols df) ++ [("Ticker_ID", ids)])%list.
Proof.
  intros Hfresh Hd. apply drop_spec in Hd. destruct Hd as [Hin [_ Hc]].
  unfold setitem, columns in Hin. cbn [cols] in Hin.
  split; [ | split ].
  - destruct (proj1 (In_columns_set_col _ _ _ _) (Hin "code" (or_introl eq_refl)));
      [ discriminate | assumption ].
  - destruct (proj1 (In_columns_set_col _ _ _ _)
                (Hin "exchange_short_name" (or_intror (or_introl eq_refl))));
      [ discriminate | assumption ].
  - rewrite Hc. unfold setitem. cbn [cols].
    rewrite set_col_fresh by exact Hfresh. now rewrite filter_app.
Qed.





(** C10 as stated fails on both halves.  A row of exactly nine fields
    including [code] and [exchange_short_name] whose code is a number makes
    [series + str] raise, so no table is returned; and a row of ten fields,
    one of them named Ticker_ID, leaves eight columns and is reshaped into a
    table. *)
Lemma retrieve_daily_arity_counterexample :
  (length daily_row_numeric_code = 9 /\
   In "code" (map fst daily_row_numeric_code) /\
   In "exchange_short_name" (map fst daily_row_numeric_code) /\
   retrieve_daily_price (serving (JArray [daily_row_numeric_code]))
     "HK" "demo" s0
   = (Ok None, logged s0 (daily_error "HK" TypeError))) /\
  (length daily_row_own_id = 10 /\
   exists t,
     retrieve_daily_price (serving (JArray [daily_row_own_id])) "US" "demo" s0
     = (Ok (Some t), s0)).
Proof.
  split.
  - split; [ reflexivity | ]. split; [ cbn; tauto | ]. split; [ cbn; tauto | ].
    reflexivity.
  - split; [ reflexivity | ]. eexists. reflexivity.
Qed.

(** C10, amended.  For a daily-price response that is a non-empty array of
    rows with no field named Ticker_ID: if the response table has exactly
    nine columns, [code] and [exchange_short_name] among them, and every
    row's code is a string, then the relabelling to the eight fixed
    names and both projections succeed and a table in the unsorted layout is
    returned; and if the response table does not have exactly nine columns,
    the reshaping raises, the exception is caught, one ERROR record is
    written and the absent result is returned. *)
Theorem retrieve_daily_arity w exchange api_key s rows s1 :
  _make_api_request w (daily_url exchange api_key) s = (Ok (JArray rows), s1) ->
  rows <> [] ->
  ~ In "Ticker_ID" (record_columns rows) ->
  (length (record_columns rows) = 9 ->
   In "code" (record_columns rows) ->
   In "exchange_short_name" (record_columns rows) ->
   Forall (fun r => is_str (field "code" r)) rows ->
   exists t,
     retrieve_daily_price w exchange api_key s = (Ok (Some t), s1) /\
     columns t = PRICE_COLUMNS /\ nrows t = length rows) /\
  (length (record_columns rows) <> 9 ->
   exists e,
     retrieve_daily_price w exchange api_key s
     = (Ok None,
        mkState (ticks s1)
          (logs s1 ++ [mkLog ERROR
                         ("Failed to process daily prices for "
                            ++ exchange ++ ": ") (Some e) true]))).
Proof.
  intros Hreq Hne Hfresh.
  assert (Ht : truthy (JArray rows) = true) by (now destruct rows).
  rewrite (retrieve_daily_truthy _ _ _ _ _ _ Hreq Ht). cbn [DataFrame].
  rewrite <- columns_from_records in Hfresh.
  rewrite <- !(columns_from_records rows).
  assert (Hcol : column "code" (from_records rows)
                 = if existsb (String.eqb "code") (columns (from_records rows))
                   then Some (map (field "code") rows) else None).
  { rewrite column_from_records. now rewrite columns_from_records. }
  pose proof (NoDup_columns_from_records rows) as Hnd.
  assert (Hrows : nrows (from_records rows) = length rows) by reflexivity.
  generalize dependent (from_records rows). intros df Hfresh Hcol Hnd Hrows.
  split.
  - intros H9 Hcode Hesn Hstr.
    assert (Ecode : column "code" df = Some (map (field "code") rows)).
    { rewrite Hcol. apply existsb_eqb_In in Hcode. now rewrite Hcode. }
    destruct (series_add_succeeds (map (field "code") rows) ("_" ++ exchange))
      as [ids Eids];
      [ apply Forall_map; eapply Forall_impl; [ | exact Hstr ];
        intros r Hr; now right | ].
    pose proof (drop_succeeds ["code"; "exchange_short_name"]
                  (setitem "Ticker_ID" ids df)) as Edrop.
    assert (Hlabels : forall c, In c ["code"; "exchange_short_name"] ->
                        In c (columns (setitem "Ticker_ID" ids df))).
    { intros c [<- | [<- | []]]; unfold setitem, columns; cbn [cols];
        apply In_columns_set_col; now right. }
    specialize (Edrop Hlabels).
    remember (mkFrame (nrows (setitem "Ticker_ID" ids df)) _) as left eqn:Hleft.
    assert (H8 : length (cols left) = 8).
    { subst left. unfold setitem. cbn [cols].
      rewrite set_col_fresh by exact Hfresh.
      rewrite filter_app, length_app.
      pose proof (length_filter_two_labels "code" "exchange_short_name"
                    (cols df) Hnd Hcode Hesn ltac:(discriminate)) as Hl.
      unfold columns in H9. rewrite length_map in H9.
      change (length (filter _ [("Ticker_ID", ids)])) with 1. lia. }
    destruct (relabel_and_project left H8) as [df3 [sorted [t [E3 [E4 E5]]]]].
    assert (E : reshape_daily exchange df = Ok t).
    { unfold reshape_daily, getitem. rewrite Ecode, Eids, Edrop.
      now rewrite E3, E4. }
    rewrite E. exists t. split; [ reflexivity | ].
    destruct (reshape_daily_spec _ _ _ E)
      as [_ [_ [_ [_ [_ [_ [_ [_ [_ [_ [Hn [Hc _]]]]]]]]]]]].
    split; [ exact Hc | now rewrite Hn ].
  - intros H9.
    destruct (reshape_daily exchange df) as [t | e] eqn:E;
      [ exfalso | now exists e ].
    destruct (reshape_daily_spec _ _ _ E)
      as [code [ids [left [_ [_ [_ [Hdrop [H8 _]]]]]]]].
    destruct (cols_left_fresh _ _ _ Hfresh Hdrop) as [Hcode [Hesn Hleft]].
    rewrite Hleft, length_app in H8. cbn [length] in H8.
    pose proof (length_filter_two_labels "code" "exchange_short_name"
                  (cols df) Hnd Hcode Hesn ltac:(discriminate)) as Hl.
    apply H9. unfold columns. rewrite length_map. lia.
Qed.

Lemma retrieve_daily_arity_witness :
  _make_api_request (serving (JArray [daily_row_demo])) (daily_url "US" "demo") s0
    = (Ok (JArray [daily_row_demo]), s0) /\
  [daily_row_demo] <> [] /\
  ~ In "Ticker_ID" (record_columns [daily_row_demo]) /\
  length (record_columns [daily_row_demo]) = 9 /\
  In "code" (record_columns [daily_row_demo]) /\
  In "exchange_short_name" (record_columns [daily_row_demo]) /\
  Forall (fun r => is_str (field "code" r)) [daily_row_demo] /\
  exists t,
    retrieve_daily_price (serving (JArray [daily_row_demo])) "US" "demo" s0
      = (Ok (Some t), s0) /\
    columns t = PRICE_COLUMNS /\ nrows t = length [daily_row_demo].
Proof.
  assert (Hfresh : ~ In "Ticker_ID" (record_columns [daily_row_demo]))
    by (cbn; intuition discriminate).
  assert (Hne : [daily_row_demo] <> []) by discriminate.
  assert (Hcode : In "code" (record_columns [daily_row_demo]))
    by (cbn; tauto).
  assert (Hesn : In "exchange_short_name" (record_columns [daily_row_demo]))
    by (cbn; tauto).
  assert (Hstr : Forall (fun r => is_str (field "code" r)) [daily_row_demo]).
  { constructor; [ now exists "AAPL" | constructor ]. }
  split; [ reflexivity | ]. split; [ exact Hne | ]. split; [ exact Hfresh | ].
  split; [ reflexivity | ]. split; [ exact Hcode | ]. split; [ exact Hesn | ].
  split; [ exact Hstr | ].
  exact (proj1 (retrieve_daily_arity (serving (JArray [daily_row_demo]))
                  "US" "demo" s0 [daily_row_demo] s0 eq_refl Hne Hfresh)
           eq_refl Hcode Hesn Hstr).
Defined.

(* ================================================================== *)
(** * Failures and the return contract *)
(* ================================================================== *)

Lemma make_api_request_failure w url s :
  transport_failure (http w url) ->
  exists e,
    is_RequestException e = true /\
    _make_api_request w url s = (Ok JNull, logged s (request_error e)).
Proof.
  unfold _make_api_request, requests.get, requests.raise_for_status,
    requests.json, status_passes.
  destruct (http w url) as [| status body | status c];
    cbn [transport_failure].
  - intros _. exists ConnectionError. split; reflexivity.
  - intros [Hst | ->]; [ destruct body | ]; run;
      cbn [requests.status_code requests.content].
    + apply negb_false_iff in Hst. rewrite Hst.
      exists (HTTPError status). split; reflexivity.
    + apply negb_false_iff in Hst. rewrite Hst.
      exists (HTTPError status). split; reflexivity.
    + destruct ((400 <=? status)%Z && (status <? 600)%Z).
      * exists (HTTPError status). split; reflexivity.
      * exists JSONDecodeError. split; reflexivity.
  - intros Hst. run. cbn [requests.status_code requests.content].
    apply negb_false_iff in Hst. rewrite Hst.
    exists (HTTPError status). split; reflexivity.
Qed.

(** The three functions built on the request helper answer a transport
    failure with the absent result, the helper's ERROR record in the log. *)
Lemma helper_retrievals_on_failure w s :
  (forall api_key,
     transport_failure (http w (exchanges_url api_key)) ->
     exists e, retrieve_exchanges w api_key s
               = (Ok None, logged s (request_error e))) /\
  (forall api_key exchange,
     transport_failure (http w (tickers_url api_key exchange)) ->
     exists e, retrieve_tickers w api_key exchange s
               = (Ok None, logged s (request_error e))) /\
  (forall exchange api_key,
     transport_failure (http w (daily_url exchange api_key)) ->
     exists e, retrieve_daily_price w exchange api_key s
               = (Ok None,
                  logged (logged s (request_error e)) (daily_warning exchange))).
Proof.
  repeat split; intros; match goal with H : transport_failure _ |- _ =>
    destruct (make_api_request_failure _ _ s H) as [e [_ He]] end; exists e.
  - apply (retrieve_exchanges_falsy _ _ _ _ _ He). reflexivity.
  - apply (retrieve_tickers_guarded _ _ _ _ _ _ He). now left.
  - apply (retrieve_daily_falsy _ _ _ _ _ _ He). reflexivity.
Qed.

(** C5 fails on the code for historical prices, which does not go through
    the request helper and never looks at the status: a 404 that carries
    rows is reshaped into a table and nothing is logged, where the helper on
    the same reply logs an HTTPError and gives [None]. *)
Lemma retrieve_historical_ignores_status :
  retrieve_historical_price not_found_with_rows "US" "AAPL" "2024-01-02" "demo" s0
    = (Ok (Some historical_demo_table), s0) /\
  nrows historical_demo_table = 1 /\
  _make_api_request not_found_with_rows
    (historical_url "US" "AAPL" "2024-01-02" "demo") s0
    = (Ok JNull, logged s0 (request_error (HTTPError 404))).
Proof. repeat split. Qed.


Lemma reshape_tickers_shape exchange t0 rows out :
  reshape_tickers exchange t0 rows = Ok out ->
  nrows out = length rows /\ columns out = TICKER_COLUMNS.
Proof.
  unfold reshape_tickers. intros H.
  destruct (getitem "Code" _); [ | discriminate ].
  destruct (series_add _ _); [ | discriminate ].
  destruct (getitem "Exchange" _); [ | discriminate ].
  apply select_spec in H. destruct H as [Hn [Hc _]]. split; assumption.
Qed.


(** The three functions built on the request helper let the parser's own
    exceptions through: the helper is called outside their [try]. *)
Lemma helper_retrievals_on_crash w s e :
  (forall api_key,
     parser_crash (http w (exchanges_url api_key)) = Some e ->
     retrieve_exchanges w api_key s = (Raise e, s)) /\
  (forall api_key exchange,
     parser_crash (http w (tickers_url api_key exchange)) = Some e ->
     retrieve_tickers w api_key exchange s = (Raise e, s)) /\
  (forall exchange api_key,
     parser_crash (http w (daily_url exchange api_key)) = Some e ->
     retrieve_daily_price w exchange api_key s = (Raise e, s)).
Proof.
  repeat split; intros; match goal with H : parser_crash _ = _ |- _ =>
    pose proof (make_api_request_crash _ _ s _ H) as He end.
  - unfold retrieve_exchanges, bind. now rewrite He.
  - unfold retrieve_tickers, bind. now rewrite He.
  - unfold retrieve_daily_price, bind. now rewrite He.
Qed.

(** C6 as stated fails, in two ways.  A table that is returned need not be
    populated: from an object of empty arrays daily-price retrieval returns
    a table without a row.  And an exception can get past three of the
    functions: when the JSON parser gives up on the body with a [ValueError]
    of its own, the request helper, which catches request exceptions only,
    lets it through, and exchange, ticker and daily-price retrieval call the
    helper outside their [try]. *)
Lemma retrieval_returns_counterexample :
  (exists t,
     retrieve_daily_price (serving daily_columns_empty) "US" "demo" s0
       = (Ok (Some t), s0) /\
     nrows t = 0 /\
     ~ populated_or_absent (Some t)) /\
  retrieve_exchanges overlong "demo" s0 = (Raise ValueError, s0) /\
  retrieve_tickers overlong "demo" "LSE" s0 = (Raise ValueError, s0) /\
  retrieve_daily_price overlong "US" "demo" s0 = (Raise ValueError, s0).
Proof.
  split; [ | repeat split ].
  eexists. split; [ reflexivity | ]. split; [ reflexivity | ].
  cbn. lia.
Qed.



(* ================================================================== *)
(** * Further properties: the request helper *)
(* ================================================================== *)


(* ================================================================== *)
(** * Further properties: ticker retrieval *)
(* ================================================================== *)

Lemma length_append (a b : string) :
  String.length (a ++ b) = String.length a + String.length b.
Proof. induction a as [| c a IH]; cbn; [ reflexivity | now rewrite IH ]. Qed.

(** Two strings that agree once the same suffix is added are the same. *)
Lemma append_suffix_inj (a b t : string) : a ++ t = b ++ t -> a = b.
Proof.
  revert b. induction a as [| c a IH]; intros [| d b] H; cbn in H.
  - reflexivity.
  - apply (f_equal String.length) in H. cbn in H.
    rewrite length_append in H. lia.
  - apply (f_equal String.length) in H. cbn in H.
    rewrite length_append in H. lia.
  - injection H as -> H. f_equal. now apply IH.
Qed.

(** What a successful ticker reshaping looks like. *)
Lemma reshape_tickers_spec exchange t0 rows out :
  reshape_tickers exchange t0 rows = Ok out ->
  exists ids,
    series_add (map (field "Code") rows) ("_" ++ exchange) = Ok ids /\
    column "Ticker_ID" out = Some ids /\
    column "Source" out
      = Some (repeat (VStr ("EoDHD.com - Exchange " ++ exchange))
                     (length rows)) /\
    column "Date_Updated" out = Some (repeat (VTime t0) (length rows)) /\
    forall c, In c TICKER_PROVIDER_COLUMNS ->
      In c (record_columns rows) /\
      column c out = Some (map (field c) rows).
Proof.
  intros E. unfold reshape_tickers, getitem, setitem_scalar in E.
  rewrite !column_setitem_other in E by discriminate.
  rewrite column_from_records in E.
  destruct (existsb (String.eqb "Code") _); [ | discriminate ].
  destruct (series_add _ _) as [ids |] eqn:Eids; [ | discriminate ].
  rewrite !column_setitem_other in E by discriminate.
  rewrite column_from_records in E.
  destruct (existsb (String.eqb "Exchange") _); [ | discriminate ].
  apply select_spec in E. destruct E as [_ [_ Hc]].
  exists ids. split; [ reflexivity | ].
  destruct (Hc "Ticker_ID") as [-> _]; [ cbn; tauto | ].
  destruct (Hc "Source") as [-> _]; [ cbn; tauto | ].
  destruct (Hc "Date_Updated") as [-> _]; [ cbn; tauto | ].
  rewrite column_setitem_other, column_setitem_same by discriminate.
  split; [ reflexivity | ].
  rewrite !column_setitem_other, column_setitem_same by discriminate.
  split; [ reflexivity | ].
  rewrite !column_setitem_other, column_setitem_same by discriminate.
  split; [ reflexivity | ].
  intros c Hin.
  assert (Hc' : In c TICKER_COLUMNS) by (cbn in Hin |- *; tauto).
  destruct (Hc c Hc') as [-> Hsome].
  assert (Hne : c <> "EoDHD_Exchange" /\ c <> "Ticker_ID" /\
                c <> "Date_Updated" /\ c <> "Source").
  { cbn in Hin. repeat split; intros ->; intuition discriminate. }
  destruct Hne as [H1 [H2 [H3 H4]]].
  rewrite !column_setitem_other in Hsome |- * by assumption.
  rewrite column_from_records in Hsome |- *.
  destruct (existsb (String.eqb c) (record_columns rows)) eqn:Ec;
    [ | contradiction ].
  split; [ now apply existsb_eqb_In | reflexivity ].
Qed.

(** A table returned by ticker retrieval is the reshaping of the rows. *)
Lemma retrieve_tickers_table w api_key exchange s rows s1 t s' :
  _make_api_request w (tickers_url api_key exchange) s
    = (Ok (JArray rows), s1) ->
  retrieve_tickers w api_key exchange s = (Ok (Some t), s') ->
  reshape_tickers exchange (clock w (ticks s1)) rows = Ok t /\
  s' = mkState (S (ticks s1)) (logs s1).
Proof.
  intros Hreq Hres. destruct rows as [| r rows].
  - rewrite (retrieve_tickers_guarded _ _ _ _ _ _ Hreq) in Hres;
      [ discriminate | now left ].
  - rewrite (retrieve_tickers_array _ _ _ _ _ _ _ Hreq) in Hres.
    destruct (reshape_tickers _ _ _) as [out |]; [ | discriminate ].
    injection Hres as <- <-. now split.
Qed.

(** X2.  Ticker retrieval gives up silently on a body that is empty or is
    not a list (a provider error object, say): it returns the absent result
    and writes no log record of its own. *)
Theorem retrieve_tickers_guard w api_key exchange s data s1 :
  _make_api_request w (tickers_url api_key exchange) s = (Ok data, s1) ->
  truthy data = false \/ is_list data = false ->
  retrieve_tickers w api_key exchange s = (Ok None, s1).
Proof.
  intros Hreq Hg. unfold retrieve_tickers. rewrite (bind_ok _ _ _ _ _ Hreq).
  destruct Hg as [-> | ->]; [ reflexivity | ].
  now rewrite orb_true_r.
Qed.

Lemma retrieve_tickers_guard_witness :
  _make_api_request (serving error_body) (tickers_url "demo" "LSE") s0
    = (Ok error_body, s0) /\
  (truthy error_body = false \/ is_list error_body = false) /\
  retrieve_tickers (serving error_body) "demo" "LSE" s0 = (Ok None, s0).
Proof.
  split; [ reflexivity | ]. split; [ now right | ].
  apply (retrieve_tickers_guard (serving error_body) "demo" "LSE" s0
           error_body s0); [ reflexivity | now right ].
Defined.

(** X3.  Ticker retrieval needs each of Code, Name, Country, Exchange,
    Currency, Type and Isin in at least one provider row.  When one of them
    is in no row, the reshaping raises after the clock has been read; the
    function writes one ERROR record (without traceback) and returns the
    absent result. *)
Theorem retrieve_tickers_missing_field w api_key exchange s rows s1 c :
  _make_api_request w (tickers_url api_key exchange) s
    = (Ok (JArray rows), s1) ->
  rows <> [] ->
  In c TICKER_PROVIDER_COLUMNS ->
  ~ In c (record_columns rows) ->
  exists e,
    retrieve_tickers w api_key exchange s
    = (Ok None,
       mkState (S (ticks s1))
         (logs s1 ++ [mkLog ERROR
                        ("Failed to process ticker data for "
                           ++ exchange ++ ": ") (Some e) false])).
Proof.
  intros Hreq Hne Hc Hmiss. destruct rows as [| r rows]; [ contradiction | ].
  rewrite (retrieve_tickers_array _ _ _ _ _ _ _ Hreq).
  destruct (reshape_tickers _ _ _) as [out | e] eqn:E; [ | now exists e ].
  destruct (reshape_tickers_spec _ _ _ _ E) as [_ [_ [_ [_ [_ H]]]]].
  destruct (H c Hc) as [Hin _]. contradiction.
Qed.

Lemma retrieve_tickers_missing_field_witness :
  _make_api_request (serving (JArray [ticker_row_no_isin]))
    (tickers_url "demo" "LSE") s0
    = (Ok (JArray [ticker_row_no_isin]), s0) /\
  [ticker_row_no_isin] <> [] /\
  In "Isin" TICKER_PROVIDER_COLUMNS /\
  ~ In "Isin" (record_columns [ticker_row_no_isin]) /\
  exists e,
    retrieve_tickers (serving (JArray [ticker_row_no_isin])) "demo" "LSE" s0
    = (Ok None,
       mkState 1
         [mkLog ERROR "Failed to process ticker data for LSE: " (Some e) false]).
Proof.
  assert (Hne : [ticker_row_no_isin] <> []) by discriminate.
  assert (Hin : In "Isin" TICKER_PROVIDER_COLUMNS) by (cbn; tauto).
  assert (Hmiss : ~ In "Isin" (record_columns [ticker_row_no_isin]))
    by (cbn; intuition discriminate).
  split; [ reflexivity | ]. split; [ exact Hne | ]. split; [ exact Hin | ].
  split; [ exact Hmiss | ].
  exact (retrieve_tickers_missing_field
           (serving (JArray [ticker_row_no_isin])) "demo" "LSE" s0
           [ticker_row_no_isin] s0 "Isin" eq_refl Hne Hin Hmiss).
Defined.

(** X4.  A table returned by ticker retrieval has exactly the eleven
    columns Ticker_ID, Code, Name, Country, Exchange, EoDHD_Exchange,
    Currency, Type, Isin, Source, Date_Updated, in this order; every row
    carries the Source text that names the exchange argument and one and
    the same Date_Updated, the single clock reading of the call; a string
    the provider sent under one of its seven fields is handed through
    unchanged; and nothing is logged. *)
Theorem retrieve_tickers_layout w api_key exchange s rows s1 t s' :
  _make_api_request w (tickers_url api_key exchange) s
    = (Ok (JArray rows), s1) ->
  retrieve_tickers w api_key exchange s = (Ok (Some t), s') ->
  s' = mkState (S (ticks s1)) (logs s1) /\
  columns t
    = ["Ticker_ID"; "Code"; "Name"; "Country"; "Exchange"; "EoDHD_Exchange";
       "Currency"; "Type"; "Isin"; "Source"; "Date_Updated"] /\
  (forall i, i < length rows ->
     cell t "Source" i = Some (VStr ("EoDHD.com - Exchange " ++ exchange)) /\
     cell t "Date_Updated" i = Some (VTime (clock w (ticks s1)))) /\
  (forall i r c v,
     nth_error rows i = Some r -> In c TICKER_PROVIDER_COLUMNS ->
     dict_get c r = Some (VStr v) ->
     cell t c i = Some (VStr v)).
Proof.
  intros Hreq Hres.
  destruct (retrieve_tickers_table _ _ _ _ _ _ _ _ Hreq Hres) as [E ->].
  split; [ reflexivity | ].
  destruct (reshape_tickers_shape _ _ _ _ E) as [_ Hc].
  split; [ exact Hc | ].
  destruct (reshape_tickers_spec _ _ _ _ E) as [ids [_ [_ [Hs [Hd Hp]]]]].
  split.
  - intros i Hi. unfold cell. rewrite Hs, Hd.
    split; now apply nth_error_repeat.
  - intros i r c v Hr Hin Hv. unfold cell.
    destruct (Hp c Hin) as [_ ->].
    rewrite nth_error_map, Hr. cbn. unfold field. now rewrite Hv.
Qed.

Lemma retrieve_tickers_layout_witness :
  _make_api_request tickers_demo_world (tickers_url "demo" "LSE") s0
    = (Ok (JArray [ticker_row_demo]), s0) /\
  retrieve_tickers tickers_demo_world "demo" "LSE" s0
    = (Ok (Some tickers_demo_table), mkState 1 []) /\
  columns tickers_demo_table
    = ["Ticker_ID"; "Code"; "Name"; "Country"; "Exchange"; "EoDHD_Exchange";
       "Currency"; "Type"; "Isin"; "Source"; "Date_Updated"] /\
  cell tickers_demo_table "Source" 0
    = Some (VStr "EoDHD.com - Exchange LSE") /\
  cell tickers_demo_table "Name" 0 = Some (VStr "Vodafone").
Proof.
  split; [ reflexivity | ]. split; [ reflexivity | ].
  destruct (retrieve_tickers_layout tickers_demo_world "demo" "LSE" s0
              [ticker_row_demo] s0 tickers_demo_table (mkState 1 [])
              eq_refl eq_refl) as [_ [Hc [Hs Hp]]].
  split; [ exact Hc | ]. split.
  - exact (proj1 (Hs 0 (Nat.lt_0_succ 0))).
  - apply (Hp 0 ticker_row_demo "Name" "Vodafone"); [ reflexivity | | reflexivity ].
    cbn. tauto.
Defined.

(** X5.  Within one call of ticker retrieval, two rows whose Code is a
    string have the same Ticker_ID exactly when they have the same Code. *)
Theorem retrieve_tickers_ids_distinct w api_key exchange s rows s1 t s'
        i j ri rj ci cj :
  _make_api_request w (tickers_url api_key exchange) s
    = (Ok (JArray rows), s1) ->
  retrieve_tickers w api_key exchange s = (Ok (Some t), s') ->
  nth_error rows i = Some ri -> nth_error rows j = Some rj ->
  field "Code" ri = VStr ci -> field "Code" rj = VStr cj ->
  (cell t "Ticker_ID" i = cell t "Ticker_ID" j <-> ci = cj).
Proof.
  intros Hreq Hres Hi Hj Hci Hcj.
  destruct (retrieve_tickers_table _ _ _ _ _ _ _ _ Hreq Hres) as [E _].
  destruct (reshape_tickers_spec _ _ _ _ E) as [ids [Eids [Hid _]]].
  destruct (series_add_nth _ _ _ Eids) as [_ Hnth].
  assert (Hti : nth_error ids i = Some (VStr (ci ++ "_" ++ exchange))).
  { destruct (Hnth i (VStr ci)) as [[c [Hc H]] | [Hc _]].
    - now rewrite nth_error_map, Hi, <- Hci.
    - now injection Hc as <-.
    - discriminate. }
  assert (Htj : nth_error ids j = Some (VStr (cj ++ "_" ++ exchange))).
  { destruct (Hnth j (VStr cj)) as [[c [Hc H]] | [Hc _]].
    - now rewrite nth_error_map, Hj, <- Hcj.
    - now injection Hc as <-.
    - discriminate. }
  unfold cell. rewrite Hid, Hti, Htj. split.
  - intros [= H]. now apply append_suffix_inj in H.
  - now intros ->.
Qed.

Lemma retrieve_tickers_ids_distinct_witness :
  _make_api_request (serving (JArray [ticker_row_demo; ticker_row_bp]))
    (tickers_url "demo" "LSE") s0
    = (Ok (JArray [ticker_row_demo; ticker_row_bp]), s0) /\
  retrieve_tickers (serving (JArray [ticker_row_demo; ticker_row_bp]))
    "demo" "LSE" s0
    = (Ok (Some tickers_pair_table), mkState 1 []) /\
  nth_error [ticker_row_demo; ticker_row_bp] 0 = Some ticker_row_demo /\
  nth_error [ticker_row_demo; ticker_row_bp] 1 = Some ticker_row_bp /\
  field "Code" ticker_row_demo = VStr "VOD" /\
  field "Code" ticker_row_bp = VStr "BP" /\
  (cell tickers_pair_table "Ticker_ID" 0 = cell tickers_pair_table "Ticker_ID" 1
   <-> "VOD" = "BP").
Proof.
  split; [ reflexivity | ]. split; [ reflexivity | ].
  split; [ reflexivity | ]. split; [ reflexivity | ].
  split; [ reflexivity | ]. split; [ reflexivity | ].
  apply (retrieve_tickers_ids_distinct
           (serving (JArray [ticker_row_demo; ticker_row_bp])) "demo" "LSE" s0
           [ticker_row_demo; ticker_row_bp] s0 tickers_pair_table
           (mkState 1 []) 0 1
           ticker_row_demo ticker_row_bp "VOD" "BP"); reflexivity.
Defined.

(* ================================================================== *)
(** * Further properties: exchange retrieval *)
(* ================================================================== *)

(** A table returned by exchange retrieval is the tagged provider rows
    followed by the manual rows, after three clock readings. *)
Lemma retrieve_exchanges_table w api_key s rows s1 t s' :
  _make_api_request w (exchanges_url api_key) s = (Ok (JArray rows), s1) ->
  retrieve_exchanges w api_key s = (Ok (Some t), s') ->
  t = concat (tagged_exchanges rows (clock w (ticks s1)))
             (manual_frame (clock w (S (ticks s1)))
                           (clock w (S (S (ticks s1))))) /\
  s' = mkState (S (S (S (ticks s1)))) (logs s1).
Proof.
  intros Hreq Hres. destruct rows as [| r rows].
  - rewrite (retrieve_exchanges_falsy _ _ _ _ _ Hreq) in Hres by reflexivity.
    discriminate.
  - rewrite (retrieve_exchanges_array _ _ _ _ _ _ Hreq) in Hres.
    injection Hres as <- <-. now split.
Qed.

Lemma In_record_columns_from (c : string) (rows : list dict) seen :
  In c (fold_left (fun acc d => fold_left add_key (map fst d) acc) rows seen)
  <-> In c seen \/ exists d, In d rows /\ In c (map fst d).
Proof.
  revert seen. induction rows as [| d rows IH]; intros seen; cbn.
  - split; [ auto | intros [H | [d [[] _]]]; assumption ].
  - rewrite IH, In_fold_add_key. split.
    + intros [[H | H] | [d' [H1 H2]]]; eauto.
    + intros [H | [d' [[<- | H1] H2]]]; eauto.
Qed.

(** A label is a column of the table of some rows exactly when one of the
    rows has it as a key. *)
Lemma In_record_columns (c : string) (rows : list dict) :
  In c (record_columns rows) <-> exists d, In d rows /\ In c (map fst d).
Proof.
  unfold record_columns. rewrite In_record_columns_from. cbn. intuition.
Qed.

Lemma dict_get_In_keys (k : string) (d : dict) (v : value) :
  dict_get k d = Some v -> In k (map fst d).
Proof.
  unfold dict_get. destruct (find _ d) as [kv |] eqn:E; [ | discriminate ].
  intros _. apply find_some in E. destruct E as [Hin Heq].
  apply String.eqb_eq in Heq. subst k. now apply in_map.
Qed.

Lemma column_tagged_date rows t0 :
  column "Date_Updated" (tagged_exchanges rows t0)
  = Some (repeat (VTime t0) (length rows)).
Proof. unfold tagged_exchanges, setitem_scalar. apply column_setitem_same. Qed.

Lemma column_tagged_other rows t0 k :
  k <> "Source" -> k <> "Date_Updated" ->
  column k (tagged_exchanges rows t0) = column k (from_records rows).
Proof.
  intros H1 H2. unfold tagged_exchanges, setitem_scalar.
  now rewrite !column_setitem_other.
Qed.

(** X6.  Exchange retrieval reads the clock three times when it returns a
    table and logs nothing: every provider row carries the first reading as
    its Date_Updated, the NYSE row the second and the NASDAQ row the
    third. *)
Theorem retrieve_exchanges_timestamps w api_key s rows s1 t s' :
  _make_api_request w (exchanges_url api_key) s = (Ok (JArray rows), s1) ->
  retrieve_exchanges w api_key s = (Ok (Some t), s') ->
  s' = mkState (ticks s1 + 3) (logs s1) /\
  (forall i, i < length rows ->
     cell t "Date_Updated" i = Some (VTime (clock w (ticks s1)))) /\
  cell t "Date_Updated" (length rows)
    = Some (VTime (clock w (ticks s1 + 1))) /\
  cell t "Date_Updated" (length rows + 1)
    = Some (VTime (clock w (ticks s1 + 2))).
Proof.
  intros Hreq Hres.
  destruct (retrieve_exchanges_table _ _ _ _ _ _ _ Hreq Hres) as [-> ->].
  replace (ticks s1 + 3) with (S (S (S (ticks s1)))) by lia.
  replace (ticks s1 + 1) with (S (ticks s1)) by lia.
  replace (ticks s1 + 2) with (S (S (ticks s1))) by lia.
  split; [ reflexivity | ]. split; [ | split ].
  - intros i Hi.
    rewrite cell_concat_left; try apply wf_tagged_exchanges; try (cbn; lia).
    + unfold column_or_na. rewrite column_tagged_date.
      now apply nth_error_repeat.
    + left. apply columns_tagged. tauto.
  - rewrite <- (Nat.add_0_r (length rows)). manual_cell.
  - manual_cell.
Qed.

Lemma retrieve_exchanges_timestamps_witness :
  _make_api_request exchanges_demo_world (exchanges_url "demo") s0
    = (Ok (JArray [exchange_row_demo]), s0) /\
  retrieve_exchanges exchanges_demo_world "demo" s0
    = (Ok (Some exchanges_demo_table), mkState 3 []) /\
  cell exchanges_demo_table "Date_Updated" 0 = Some (VTime 0) /\
  cell exchanges_demo_table "Date_Updated" 1 = Some (VTime 1) /\
  cell exchanges_demo_table "Date_Updated" 2 = Some (VTime 2).
Proof.
  split; [ reflexivity | ]. split; [ reflexivity | ].
  destruct (retrieve_exchanges_timestamps exchanges_demo_world "demo" s0
              [exchange_row_demo] s0 exchanges_demo_table (mkState 3 [])
              eq_refl eq_refl) as [_ [H0 [H1 H2]]].
  split; [ exact (H0 0 (Nat.lt_0_succ 0)) | ]. split; [ exact H1 | exact H2 ].
Defined.

(** X7.  Exchange retrieval hands every string of a provider row through
    under its own label (Source and Date_Updated apart) and in the row's own
    position.  It does not look at what the provider sent before it appends
    the manual rows: a provider row that already describes NYSE stays, and
    the manual NYSE row comes on top of it. *)
Theorem retrieve_exchanges_passthrough w api_key s rows s1 t s' i r k v :
  _make_api_request w (exchanges_url api_key) s = (Ok (JArray rows), s1) ->
  retrieve_exchanges w api_key s = (Ok (Some t), s') ->
  nth_error rows i = Some r ->
  dict_get k r = Some (VStr v) ->
  k <> "Source" -> k <> "Date_Updated" ->
  cell t k i = Some (VStr v).
Proof.
  intros Hreq Hres Hr Hk Hs Hd.
  destruct (retrieve_exchanges_table _ _ _ _ _ _ _ Hreq Hres) as [-> _].
  assert (Hin : existsb (String.eqb k) (record_columns rows) = true).
  { apply existsb_eqb_In, In_record_columns. exists r. split.
    - eapply nth_error_In; eassumption.
    - eapply dict_get_In_keys; eassumption. }
  rewrite cell_concat_left; try apply wf_tagged_exchanges.
  - unfold column_or_na. rewrite column_tagged_other by assumption.
    rewrite column_from_records, Hin, nth_error_map, Hr. cbn.
    unfold field. now rewrite Hk.
  - left. apply columns_tagged. right. right. now apply existsb_eqb_In.
  - change (nrows (tagged_exchanges rows (clock w (ticks s1))))
      with (length rows).
    apply nth_error_Some. congruence.
Qed.

Lemma retrieve_exchanges_passthrough_witness :
  _make_api_request (serving (JArray [exchange_row_nyse]))
    (exchanges_url "demo") s0
    = (Ok (JArray [exchange_row_nyse]), s0) /\
  retrieve_exchanges (serving (JArray [exchange_row_nyse])) "demo" s0
    = (Ok (Some exchanges_nyse_table), mkState 3 []) /\
  nth_error [exchange_row_nyse] 0 = Some exchange_row_nyse /\
  dict_get "Code" exchange_row_nyse = Some (VStr "NYSE") /\
  "Code" <> "Source" /\ "Code" <> "Date_Updated" /\
  cell exchanges_nyse_table "Code" 0 = Some (VStr "NYSE") /\
  cell exchanges_nyse_table "Code" 1 = Some (VStr "NYSE") /\
  nrows exchanges_nyse_table = 3.
Proof.
  assert (H1 : "Code" <> "Source") by discriminate.
  assert (H2 : "Code" <> "Date_Updated") by discriminate.
  split; [ reflexivity | ]. split; [ reflexivity | ].
  split; [ reflexivity | ]. split; [ reflexivity | ].
  split; [ exact H1 | ]. split; [ exact H2 | ].
  split; [ | split; reflexivity ].
  exact (retrieve_exchanges_passthrough
           (serving (JArray [exchange_row_nyse])) "demo" s0
           [exchange_row_nyse] s0 exchanges_nyse_table (mkState 3 [])
           0 exchange_row_nyse "Code" "NYSE"
           eq_refl eq_refl eq_refl eq_refl H1 H2).
Defined.

Lemma columns_manual_frame t1 t2 : columns (manual_frame t1 t2) = MANUAL_COLUMNS.
Proof. reflexivity. Qed.

Lemma column_absent (c : string) (df : frame) :
  ~ In c (columns df) -> column c df = None.
Proof.
  intros H. destruct (column c df) eqn:E; [ | reflexivity ].
  exfalso. apply H, column_In_columns. congruence.
Qed.

(** X8.  The table of exchange retrieval spans the provider's columns and
    the manual rows' columns, and a cell nobody supplied is missing: the two
    manual rows are missing under every provider column that is not one of
    their nine labels, and the provider rows are missing under every manual
    label the provider did not send. *)
Theorem retrieve_exchanges_fill w api_key s rows s1 t s' :
  _make_api_request w (exchanges_url api_key) s = (Ok (JArray rows), s1) ->
  retrieve_exchanges w api_key s = (Ok (Some t), s') ->
  (forall k,
     In k (record_columns rows) -> ~ In k MANUAL_COLUMNS ->
     cell t k (length rows) = Some VNA /\
     cell t k (length rows + 1) = Some VNA) /\
  (forall k i,
     In k MANUAL_COLUMNS -> ~ In k (record_columns rows) ->
     k <> "Source" -> k <> "Date_Updated" -> i < length rows ->
     cell t k i = Some VNA).
Proof.
  intros Hreq Hres.
  destruct (retrieve_exchanges_table _ _ _ _ _ _ _ Hreq Hres) as [-> _].
  set (A := tagged_exchanges rows _). set (B := manual_frame _ _).
  split.
  - intros k Hin Hnot.
    assert (HA : In k (columns A) \/ In k (columns B)).
    { left. apply columns_tagged. tauto. }
    assert (HB : column_or_na k B = [VNA; VNA]).
    { unfold column_or_na. now rewrite column_absent. }
    assert (HwA : wf A) by apply wf_tagged_exchanges.
    change (length rows) with (nrows A). split.
    + rewrite <- (Nat.add_0_r (nrows A)).
      now rewrite (cell_concat_right k A B 0 HwA HA), HB.
    + now rewrite (cell_concat_right k A B 1 HwA HA), HB.
  - intros k i Hin Hnot Hs Hd Hi.
    rewrite cell_concat_left; try apply wf_tagged_exchanges; try exact Hi.
    + unfold column_or_na, A. rewrite column_tagged_other by assumption.
      rewrite column_absent by (now rewrite columns_from_records).
      now apply nth_error_repeat.
    + right. exact Hin.
Qed.

Lemma retrieve_exchanges_fill_witness :
  _make_api_request (serving (JArray [exchange_row_partial]))
    (exchanges_url "demo") s0
    = (Ok (JArray [exchange_row_partial]), s0) /\
  retrieve_exchanges (serving (JArray [exchange_row_partial])) "demo" s0
    = (Ok (Some exchanges_partial_table), mkState 3 []) /\
  cell exchanges_partial_table "Flag" 1 = Some VNA /\
  cell exchanges_partial_table "Flag" 2 = Some VNA /\
  cell exchanges_partial_table "Currency" 0 = Some VNA.
Proof.
  split; [ reflexivity | ]. split; [ reflexivity | ].
  destruct (retrieve_exchanges_fill (serving (JArray [exchange_row_partial]))
              "demo" s0 [exchange_row_partial] s0 exchanges_partial_table
              (mkState 3 []) eq_refl eq_refl) as [Hm Hp].
  destruct (Hm "Flag") as [H1 H2];
    [ cbn; tauto | cbn; intuition discriminate | ].
  split; [ exact H1 | ]. split; [ exact H2 | ].
  apply (Hp "Currency" 0);
    [ cbn; tauto | cbn; intuition discriminate | discriminate | discriminate
    | cbn; lia ].
Defined.



(* ================================================================== *)
(** * Further properties: historical prices *)
(* ================================================================== *)

Lemma length_set_col (c : string) (vs : list value) l :
  length (set_col c vs l) <= S (length l).
Proof.
  induction l as [| [k x] l IH]; cbn; [ lia | ].
  destruct (k =? c); cbn; lia.
Qed.

Lemma select_cols_raises (names : list string) (df : frame) e :
  select_cols names df = Raise e -> is_KeyError e.
Proof.
  induction names as [| c names IH]; cbn; [ discriminate | ].
  unfold getitem. destruct (column c df).
  - destruct (select_cols names df); [ discriminate | ].
    intros [= <-]. now apply IH.
  - intros [= <-]. now exists c.
Qed.

Lemma select_raises (names : list string) (df : frame) e :
  select names df = Raise e -> is_KeyError e.
Proof.
  unfold select. destruct (select_cols names df) eqn:E; [ discriminate | ].
  intros [= <-]. eapply select_cols_raises; eassumption.
Qed.

(** X10.  The name list is cut to the number of columns, so a historical
    response with fewer than seven fields is relabelled without complaint;
    it is the reordering to the sorted layout that then fails on the labels
    that were cut off.  The function writes one ERROR record carrying a
    KeyError and returns the absent result. *)
Theorem retrieve_historical_too_narrow w exchange ticker date_to eodhd_api s
        status data df :
  http w (historical_url exchange ticker date_to eodhd_api)
    = Response status (Some data) ->
  DataFrame data = Ok df ->
  empty df = false ->
  length (columns df) < 7 ->
  exists e,
    is_KeyError e /\
    retrieve_historical_price w exchange ticker date_to eodhd_api s
    = (Ok None,
       mkState (ticks s)
         (logs s ++ [mkLog ERROR
                       ("Updating historical price data -Ticker: "
                          ++ ticker ++ " -  ") (Some e) false])).
Proof.
  intros Hw Hdf He Hlt.
  rewrite (retrieve_historical_response _ _ _ _ _ _ _ _ Hw), Hdf, He.
  destruct (reshape_historical exchange ticker df) as [t | e] eqn:E.
  - exfalso. destruct (reshape_historical_spec _ _ _ _ E) as [H8 _].
    unfold setitem_scalar, setitem in H8. cbn [cols] in H8.
    pose proof (length_set_col "Ticker_ID"
                  (repeat (VStr (replace "." "_" (eod_ticker ticker exchange)))
                          (nrows df)) (cols df)) as Hle.
    unfold columns in Hlt. rewrite length_map in Hlt. lia.
  - exists e. split; [ | reflexivity ].
    unfold reshape_historical in E.
    destruct (set_columns _ _) as [df2 |] eqn:E2.
    + eapply select_raises; eassumption.
    + exfalso. unfold set_columns in E2.
      rewrite length_firstn in E2. cbn [length PRICE_COLUMNS] in E2.
      match type of E2 with context [(?a =? ?b)%nat] =>
        destruct (Nat.eqb_spec a b) as [_ | Hne]; [ discriminate | ] end.
      apply Hne. apply Nat.min_l.
      unfold setitem_scalar, setitem. cbn [cols].
      pose proof (length_set_col "Ticker_ID"
                    (repeat (VStr (replace "." "_" (eod_ticker ticker exchange)))
                            (nrows df)) (cols df)) as Hle.
      unfold columns in Hlt. rewrite length_map in Hlt. lia.
Qed.

Lemma retrieve_historical_too_narrow_witness :
  http (serving (JArray [bar_too_narrow]))
       (historical_url "US" "AAPL" "2024-01-02" "demo")
    = Response 200 (Some (JArray [bar_too_narrow])) /\
  DataFrame (JArray [bar_too_narrow]) = Ok (from_records [bar_too_narrow]) /\
  empty (from_records [bar_too_narrow]) = false /\
  length (columns (from_records [bar_too_narrow])) < 7 /\
  exists e,
    is_KeyError e /\
    retrieve_historical_price (serving (JArray [bar_too_narrow]))
      "US" "AAPL" "2024-01-02" "demo" s0
    = (Ok None,
       mkState 0
         [mkLog ERROR "Updating historical price data -Ticker: AAPL -  "
            (Some e) false]).
Proof.
  assert (Hlt : length (columns (from_records [bar_too_narrow])) < 7)
    by (cbn; lia).
  split; [ reflexivity | ]. split; [ reflexivity | ]. split; [ reflexivity | ].
  split; [ exact Hlt | ].
  exact (retrieve_historical_too_narrow (serving (JArray [bar_too_narrow]))
           "US" "AAPL" "2024-01-02" "demo" s0 200 (JArray [bar_too_narrow])
           (from_records [bar_too_narrow]) eq_refl eq_refl eq_refl Hlt).
Defined.

(** X11.  A historical response of exactly seven fields, none of them
    named Ticker_ID, always gives a table, and the labels go by position and
    not by name: whatever the provider calls its first field, it comes back
    as Date, the second as Open, and so on to the seventh as Volume.  The
    table has the response's rows, the sorted layout, and nothing is
    logged. *)
Theorem retrieve_historical_positional w exchange ticker date_to eodhd_api s
        status data df :
  http w (historical_url exchange ticker date_to eodhd_api)
    = Response status (Some data) ->
  DataFrame data = Ok df ->
  empty df = false ->
  length (columns df) = 7 ->
  ~ In "Ticker_ID" (columns df) ->
  exists t,
    retrieve_historical_price w exchange ticker date_to eodhd_api s
      = (Ok (Some t), s) /\
    nrows t = nrows df /\
    columns t = ["Ticker_ID"; "Date"; "Open"; "High"; "Low";
                 "Close"; "Adjusted_Close"; "Volume"] /\
    forall j c, j < 7 -> nth_error PRICE_COLUMNS j = Some c ->
      column c t = option_map snd (nth_error (cols df) j).
Proof.
  intros Hw Hdf He H7 Hfresh.
  rewrite (retrieve_historical_response _ _ _ _ _ _ _ _ Hw), Hdf, He.
  unfold columns in H7. rewrite length_map in H7.
  set (df1 := setitem_scalar "Ticker_ID"
                (VStr (replace "." "_" (eod_ticker ticker exchange))) df).
  assert (Hcols : cols df1 = (cols df ++ [("Ticker_ID",
                    repeat (VStr (replace "." "_" (eod_ticker ticker exchange)))
                           (nrows df))])%list).
  { unfold df1, setitem_scalar, setitem. cbn [cols].
    now apply set_col_fresh. }
  assert (H8 : length (cols df1) = 8)
    by (rewrite Hcols, length_app; cbn; lia).
  destruct (relabel_and_project df1 H8) as [df3 [sorted [_ [E3 [E4 _]]]]].
  assert (E : reshape_historical exchange ticker df = Ok sorted).
  { unfold reshape_historical. fold df1. rewrite H8.
    cbn [firstn PRICE_COLUMNS]. fold PRICE_COLUMNS. now rewrite E3. }
  rewrite E. exists sorted. split; [ reflexivity | ].
  destruct (reshape_historical_spec _ _ _ _ E) as [_ [Hn [Hc Hcol]]].
  split; [ exact Hn | ]. split; [ exact Hc | ].
  intros j c Hj Hnth. rewrite (Hcol j c Hnth). fold df1. rewrite Hcols.
  now rewrite nth_error_app1 by lia.
Qed.

Lemma retrieve_historical_positional_witness :
  http (serving (JArray [bar_demo]))
       (historical_url "US" "AAPL" "2024-01-02" "demo")
    = Response 200 (Some (JArray [bar_demo])) /\
  DataFrame (JArray [bar_demo]) = Ok (from_records [bar_demo]) /\
  empty (from_records [bar_demo]) = false /\
  length (columns (from_records [bar_demo])) = 7 /\
  ~ In "Ticker_ID" (columns (from_records [bar_demo])) /\
  exists t,
    retrieve_historical_price (serving (JArray [bar_demo]))
      "US" "AAPL" "2024-01-02" "demo" s0 = (Ok (Some t), s0) /\
    nrows t = nrows (from_records [bar_demo]) /\
    columns t = ["Ticker_ID"; "Date"; "Open"; "High"; "Low";
                 "Close"; "Adjusted_Close"; "Volume"] /\
    forall j c, j < 7 -> nth_error PRICE_COLUMNS j = Some c ->
      column c t = option_map snd (nth_error (cols (from_records [bar_demo])) j).
Proof.
  assert (Hfresh : ~ In "Ticker_ID" (columns (from_records [bar_demo])))
    by (cbn; intuition discriminate).
  split; [ reflexivity | ]. split; [ reflexivity | ]. split; [ reflexivity | ].
  split; [ reflexivity | ]. split; [ exact Hfresh | ].
  exact (retrieve_historical_positional (serving (JArray [bar_demo]))
           "US" "AAPL" "2024-01-02" "demo" s0 200 (JArray [bar_demo])
           (from_records [bar_demo]) eq_refl eq_refl eq_refl eq_refl Hfresh).
Defined.

(** X12.  Historical-price retrieval never looks at the status of the
    reply: two replies with the same JSON body give the same result and the
    same log, whatever their status codes. *)
Theorem retrieve_historical_status_blind w1 w2 exchange ticker date_to
        eodhd_api s status1 status2 data :
  http w1 (historical_url exchange ticker date_to eodhd_api)
    = Response status1 (Some data) ->
  http w2 (historical_url exchange ticker date_to eodhd_api)
    = Response status2 (Some data) ->
  retrieve_historical_price w1 exchange ticker date_to eodhd_api s
  = retrieve_historical_price w2 exchange ticker date_to eodhd_api s.
Proof.
  intros H1 H2.
  now rewrite (retrieve_historical_response _ _ _ _ _ _ _ _ H1),
              (retrieve_historical_response _ _ _ _ _ _ _ _ H2).
Qed.

Lemma retrieve_historical_status_blind_witness :
  http (serving (JArray [bar_demo]))
       (historical_url "US" "AAPL" "2024-01-02" "demo")
    = Response 200 (Some (JArray [bar_demo])) /\
  http not_found_with_rows (historical_url "US" "AAPL" "2024-01-02" "demo")
    = Response 404 (Some (JArray [bar_demo])) /\
  retrieve_historical_price (serving (JArray [bar_demo]))
    "US" "AAPL" "2024-01-02" "demo" s0
  = retrieve_historical_price not_found_with_rows
      "US" "AAPL" "2024-01-02" "demo" s0.
Proof.
  split; [ reflexivity | ]. split; [ reflexivity | ].
  apply (retrieve_historical_status_blind (serving (JArray [bar_demo]))
           not_found_with_rows "US" "AAPL" "2024-01-02" "demo" s0 200 404
           (JArray [bar_demo])); reflexivity.
Defined.

(** X13.  When the GET of a historical-price retrieval fails outright or
    its body is not JSON, the exception is caught inside the function: it
    writes one ERROR record, without traceback, carrying the connection
    error or the decoding error, and returns the absent result. *)
Theorem retrieve_historical_no_reply w exchange ticker date_to eodhd_api s e :
  reply_exception (http w (historical_url exchange ticker date_to eodhd_api))
    = Some e ->
  retrieve_historical_price w exchange ticker date_to eodhd_api s
  = (Ok None,
     mkState (ticks s)
       (logs s ++ [mkLog ERROR
                     ("Updating historical price data -Ticker: "
                        ++ ticker ++ " -  ") (Some e) false])).
Proof.
  unfold retrieve_historical_price, requests.get, requests.json.
  destruct (http w _) as [| status [data |] | status c];
    cbn [reply_exception]; intros [= <-]; reflexivity.
Qed.

Lemma retrieve_historical_no_reply_witness :
  reply_exception (http unreachable
                     (historical_url "US" "AAPL" "2024-01-02" "demo"))
    = Some ConnectionError /\
  retrieve_historical_price unreachable "US" "AAPL" "2024-01-02" "demo" s0
  = (Ok None,
     mkState 0
       [mkLog ERROR "Updating historical price data -Ticker: AAPL -  "
          (Some ConnectionError) false]).
Proof.
  split; [ reflexivity | ].
  apply (retrieve_historical_no_reply unreachable
           "US" "AAPL" "2024-01-02" "demo" s0 ConnectionError); reflexivity.
Defined.

(** X14.  Historical-price retrieval never reads the clock, and its log
    tells its result: a call that returns a table adds no record, and a call
    that returns the absent result adds exactly one, at DEBUG level when the
    response was empty and at ERROR level otherwise. *)
Theorem retrieve_historical_log w exchange ticker date_to eodhd_api s :
  exists r s',
    retrieve_historical_price w exchange ticker date_to eodhd_api s
      = (Ok r, s') /\
    ticks s' = ticks s /\
    match r with
    | Some _ => logs s' = logs s
    | None =>
        exists record,
          logs s' = (logs s ++ [record])%list /\
          (log_level record = DEBUG \/ log_level record = ERROR)
    end.
Proof.
  destruct (http w (historical_url exchange ticker date_to eodhd_api))
    as [| status [data |] | status c] eqn:Hw.
  - destruct (retrieve_historical_no_body w exchange ticker date_to
                eodhd_api s (or_introl Hw)) as [e ->].
    do 2 eexists. split; [ reflexivity | ]. split; [ reflexivity | ].
    eexists. split; [ reflexivity | now right ].
  - rewrite (retrieve_historical_response _ _ _ _ _ _ _ _ Hw).
    destruct (DataFrame data) as [df |].
    + destruct (empty df).
      * do 2 eexists. split; [ reflexivity | ]. split; [ reflexivity | ].
        eexists. split; [ reflexivity | now left ].
      * destruct (reshape_historical exchange ticker df).
        -- do 2 eexists. split; [ reflexivity | ]. split; reflexivity.
        -- do 2 eexists. split; [ reflexivity | ]. split; [ reflexivity | ].
           eexists. split; [ reflexivity | now right ].
    + do 2 eexists. split; [ reflexivity | ]. split; [ reflexivity | ].
      eexists. split; [ reflexivity | now right ].
  - destruct (retrieve_historical_no_body w exchange ticker date_to
                eodhd_api s
                (or_intror (or_introl (ex_intro _ status Hw)))) as [e ->].
    do 2 eexists. split; [ reflexivity | ]. split; [ reflexivity | ].
    eexists. split; [ reflexivity | now right ].
  - destruct (retrieve_historical_no_body w exchange ticker date_to
                eodhd_api s
                (or_intror (or_intror
                   (ex_intro _ status (ex_intro _ c Hw))))) as [e ->].
    do 2 eexists. split; [ reflexivity | ]. split; [ reflexivity | ].
    eexists. split; [ reflexivity | now right ].
Qed.

(* ================================================================== *)
(** * Further properties: daily prices *)
(* ================================================================== *)



(** X16.  Daily-price retrieval needs both [code] and
    [exchange_short_name] among the provider's fields: when one of the two
    is in no row, the reshaping raises, one ERROR record with traceback is
    written, and the absent result is returned.  Without [code] the record
    carries the KeyError of the lookup [df['code']]. *)
Theorem retrieve_daily_missing_field w exchange api_key s rows s1 c :
  _make_api_request w (daily_url exchange api_key) s = (Ok (JArray rows), s1) ->
  rows <> [] ->
  In c ["code"; "exchange_short_name"] ->
  ~ In c (record_columns rows) ->
  exists e,
    (c = "code" -> e = KeyError "code") /\
    retrieve_daily_price w exchange api_key s
    = (Ok None,
       mkState (ticks s1)
         (logs s1 ++ [mkLog ERROR
                        ("Failed to process daily prices for "
                           ++ exchange ++ ": ") (Some e) true])).
Proof.
  intros Hreq Hne Hc Hmiss.
  assert (Ht : truthy (JArray rows) = true) by (now destruct rows).
  rewrite (retrieve_daily_truthy _ _ _ _ _ _ Hreq Ht). cbn [DataFrame].
  destruct (reshape_daily exchange (from_records rows)) as [t | e] eqn:E.
  - exfalso.
    destruct (reshape_daily_spec _ _ _ E)
      as [code [ids [left [_ [Hcode [_ [Hdrop _]]]]]]].
    apply drop_spec in Hdrop. destruct Hdrop as [Hlab _].
    rewrite <- columns_from_records in Hmiss.
    destruct Hc as [<- | [<- | []]].
    + apply Hmiss, column_In_columns. congruence.
    + specialize (Hlab "exchange_short_name" (or_intror (or_introl eq_refl))).
      unfold setitem, columns in Hlab. cbn [cols] in Hlab.
      apply In_columns_set_col in Hlab.
      destruct Hlab as [Hd | Hin]; [ discriminate | contradiction ].
  - exists e. split; [ | reflexivity ].
    intros ->. unfold reshape_daily, getitem in E.
    rewrite column_absent in E by (now rewrite columns_from_records).
    now injection E as <-.
Qed.

Lemma retrieve_daily_missing_field_witness :
  _make_api_request (serving (JArray [daily_row_no_exchange]))
    (daily_url "US" "demo") s0
    = (Ok (JArray [daily_row_no_exchange]), s0) /\
  [daily_row_no_exchange] <> [] /\
  In "exchange_short_name" ["code"; "exchange_short_name"] /\
  ~ In "exchange_short_name" (record_columns [daily_row_no_exchange]) /\
  exists e,
    ("exchange_short_name" = "code" -> e = KeyError "code") /\
    retrieve_daily_price (serving (JArray [daily_row_no_exchange]))
      "US" "demo" s0
    = (Ok None,
       mkState 0
         [mkLog ERROR "Failed to process daily prices for US: " (Some e) true]).
Proof.
  assert (Hne : [daily_row_no_exchange] <> []) by discriminate.
  assert (Hin : In "exchange_short_name" ["code"; "exchange_short_name"])
    by (cbn; tauto).
  assert (Hmiss : ~ In "exchange_short_name"
                      (record_columns [daily_row_no_exchange]))
    by (cbn; intuition discriminate).
  split; [ reflexivity | ]. split; [ exact Hne | ]. split; [ exact Hin | ].
  split; [ exact Hmiss | ].
  exact (retrieve_daily_missing_field
           (serving (JArray [daily_row_no_exchange])) "US" "demo" s0
           [daily_row_no_exchange] s0 "exchange_short_name"
           eq_refl Hne Hin Hmiss).
Defined.

(** A table returned by daily-price retrieval is the reshaping of the
    rows, and the state is the one the request helper left. *)
Lemma retrieve_daily_table w exchange api_key s rows s1 t s' :
  _make_api_request w (daily_url exchange api_key) s = (Ok (JArray rows), s1) ->
  retrieve_daily_price w exchange api_key s = (Ok (Some t), s') ->
  reshape_daily exchange (from_records rows) = Ok t /\ s' = s1.
Proof.
  intros Hreq Hres. destruct rows as [| r rows].
  - rewrite (retrieve_daily_falsy _ _ _ _ _ _ Hreq) in Hres by reflexivity.
    discriminate.
  - rewrite (retrieve_daily_truthy _ _ _ _ _ _ Hreq) in Hres by reflexivity.
    cbn [DataFrame] in Hres.
    destruct (reshape_daily _ _) as [out |]; [ | discriminate ].
    injection Hres as <- <-. now split.
Qed.

(** X17.  In a table returned by daily-price retrieval the price labels go
    by position and not by name: with no provider field named Ticker_ID, the
    first provider field other than [code] and [exchange_short_name] comes
    back as Date, the second as Open, and so on to the seventh as Volume,
    whatever the provider calls them.  The call logs nothing and does not
    read the clock. *)
Theorem retrieve_daily_positional w exchange api_key s rows s1 t s' :
  _make_api_request w (daily_url exchange api_key) s = (Ok (JArray rows), s1) ->
  retrieve_daily_price w exchange api_key s = (Ok (Some t), s') ->
  ~ In "Ticker_ID" (record_columns rows) ->
  s' = s1 /\
  length (daily_kept (from_records rows)) = 7 /\
  forall j c, j < 7 -> nth_error PRICE_COLUMNS j = Some c ->
    column c t = option_map snd (nth_error (daily_kept (from_records rows)) j).
Proof.
  intros Hreq Hres Hfresh.
  destruct (retrieve_daily_table _ _ _ _ _ _ _ _ Hreq Hres) as [E ->].
  split; [ reflexivity | ].
  destruct (reshape_daily_spec _ _ _ E)
    as [code [ids [left [_ [_ [_ [Hdrop [H8 [_ [_ [_ [_ Hcol]]]]]]]]]]]].
  rewrite <- columns_from_records in Hfresh.
  destruct (cols_left_fresh _ _ _ Hfresh Hdrop) as [_ [_ Hleft]].
  fold (daily_kept (from_records rows)) in Hleft.
  rewrite Hleft, length_app in H8. cbn [length] in H8.
  split; [ lia | ].
  intros j c Hj Hnth. rewrite (Hcol j c Hnth), Hleft.
  now rewrite nth_error_app1 by lia.
Qed.

Lemma retrieve_daily_positional_witness :
  _make_api_request (serving (JArray [daily_row_demo])) (daily_url "US" "demo") s0
    = (Ok (JArray [daily_row_demo]), s0) /\
  retrieve_daily_price (serving (JArray [daily_row_demo])) "US" "demo" s0
    = (Ok (Some daily_demo_table), s0) /\
  ~ In "Ticker_ID" (record_columns [daily_row_demo]) /\
  column "Date" daily_demo_table = Some [VStr "2024-01-02"] /\
  column "Volume" daily_demo_table = Some [VNum 82488700].
Proof.
  assert (Hfresh : ~ In "Ticker_ID" (record_columns [daily_row_demo]))
    by (cbn; intuition discriminate).
  split; [ reflexivity | ]. split; [ reflexivity | ]. split; [ exact Hfresh | ].
  destruct (retrieve_daily_positional (serving (JArray [daily_row_demo]))
              "US" "demo" s0 [daily_row_demo] s0 daily_demo_table s0
              eq_refl eq_refl Hfresh) as [_ [_ H]].
  split.
  - exact (H 0 "Date" ltac:(lia) eq_refl).
  - exact (H 6 "Volume" ltac:(lia) eq_refl).
Defined.

(** Relabelling eight columns with [PRICE_COLUMNS], projecting to the
    sorted layout and projecting back gives the relabelled frame again. *)
Lemma project_there_and_back (left df3 sorted t : frame) :
  set_columns PRICE_COLUMNS left = Ok df3 ->
  select PRICE_COLUMNS_SORTED df3 = Ok sorted ->
  select PRICE_COLUMNS sorted = Ok t ->
  t = df3.
Proof.
  unfold set_columns. destruct left as [n l]. cbn [cols nrows].
  destruct (Nat.eqb_spec (length PRICE_COLUMNS) (length l)) as [Hlen |];
    [ | discriminate ].
  cbn [length PRICE_COLUMNS] in Hlen.
  do 8 (destruct l as [| [? ?] l]; [ discriminate | ]).
  destruct l; [ | discriminate ].
  intros [= <-]. cbn. intros [= <-]. cbn. now intros [= <-].
Qed.

(** X18.  The reorder to the sorted layout inside daily-price retrieval
    leaves no trace in what is returned: the returned table is exactly the
    frame obtained by adding Ticker_ID, dropping [code] and
    [exchange_short_name] and assigning the eight fixed labels. *)
Theorem retrieve_daily_reorder_no_effect w exchange api_key s rows s1 t s' :
  _make_api_request w (daily_url exchange api_key) s = (Ok (JArray rows), s1) ->
  retrieve_daily_price w exchange api_key s = (Ok (Some t), s') ->
  exists code ids left,
    getitem "code" (from_records rows) = Ok code /\
    series_add code ("_" ++ exchange) = Ok ids /\
    drop ["code"; "exchange_short_name"]
         (setitem "Ticker_ID" ids (from_records rows)) = Ok left /\
    set_columns PRICE_COLUMNS left = Ok t.
Proof.
  intros Hreq Hres.
  destruct (retrieve_daily_table _ _ _ _ _ _ _ _ Hreq Hres) as [E _].
  unfold reshape_daily in E.
  destruct (getitem "code" _) as [code |] eqn:Ec; [ | discriminate ].
  destruct (series_add _ _) as [ids |] eqn:Ei; [ | discriminate ].
  destruct (drop _ _) as [left |] eqn:Ed; [ | discriminate ].
  destruct (set_columns _ left) as [df3 |] eqn:E3; [ | discriminate ].
  destruct (select PRICE_COLUMNS_SORTED df3) as [sorted |] eqn:E4;
    [ | discriminate ].
  exists code, ids, left.
  split; [ reflexivity | ]. split; [ exact Ei | ]. split; [ exact Ed | ].
  rewrite E3. f_equal. symmetry.
  eapply project_there_and_back; eassumption.
Qed.

Lemma retrieve_daily_reorder_no_effect_witness :
  _make_api_request (serving (JArray [daily_row_demo])) (daily_url "US" "demo") s0
    = (Ok (JArray [daily_row_demo]), s0) /\
  retrieve_daily_price (serving (JArray [daily_row_demo])) "US" "demo" s0
    = (Ok (Some daily_demo_table), s0) /\
  exists code ids left,
    getitem "code" (from_records [daily_row_demo]) = Ok code /\
    series_add code ("_" ++ "US") = Ok ids /\
    drop ["code"; "exchange_short_name"]
         (setitem "Ticker_ID" ids (from_records [daily_row_demo])) = Ok left /\
    set_columns PRICE_COLUMNS left = Ok daily_demo_table.
Proof.
  split; [ reflexivity | ]. split; [ reflexivity | ].
  apply (retrieve_daily_reorder_no_effect (serving (JArray [daily_row_demo]))
           "US" "demo" s0 [daily_row_demo] s0 daily_demo_table s0);
    reflexivity.
Defined.

(** X19.  Daily-price retrieval never reads the clock and never returns
    the absent result silently.  Unless the JSON parser gives up on the body
    with an exception of its own, which then leaves the function with the
    log untouched, the call returns, and its log tells its result: a call
    that returns a table adds no record; a call that returns the absent
    result adds its own WARNING (nothing retrieved), after the ERROR record
    of the request helper when the request failed, or else its own ERROR
    (reshaping failed), and nothing more. *)
Theorem retrieve_daily_log w exchange api_key s :
  (exists e,
     parser_crash (http w (daily_url exchange api_key)) = Some e /\
     retrieve_daily_price w exchange api_key s = (Raise e, s))
  \/
  (exists r s',
     retrieve_daily_price w exchange api_key s = (Ok r, s') /\
     ticks s' = ticks s /\
     match r with
     | Some _ => logs s' = logs s
     | None =>
         logs s'
         = (logs s ++ [mkLog WARNING
                         ("No daily price data retrieved for " ++ exchange)
                         None false])%list
         \/ (exists e,
               is_RequestException e = true /\
               logs s'
               = (logs s ++ [mkLog ERROR "API request failed: " (Some e) true;
                             mkLog WARNING
                               ("No daily price data retrieved for "
                                  ++ exchange) None false])%list)
         \/ (exists e,
               logs s'
               = (logs s ++ [mkLog ERROR
                               ("Failed to process daily prices for "
                                  ++ exchange ++ ": ") (Some e) true])%list)
     end).
Proof.
  destruct (parser_crash (http w (daily_url exchange api_key))) as [e |] eqn:Hp.
  { left. exists e. split; [ reflexivity | ].
    now apply (proj2 (proj2 (helper_retrievals_on_crash w s e))). }
  right.
  destruct (make_api_request_returns w (daily_url exchange api_key) s Hp)
    as [data [s1 [Hreq Hs1]]].
  destruct (truthy data) eqn:Ht.
  - rewrite (retrieve_daily_truthy _ _ _ _ _ _ Hreq Ht).
    assert (Hsame : s1 = s).
    { destruct Hs1 as [-> | [e [_ [-> _]]]]; [ reflexivity | discriminate ]. }
    subst s1.
    destruct (DataFrame data) as [df | e].
    + destruct (reshape_daily exchange df) as [out | e].
      * do 2 eexists. split; [ reflexivity | ]. now split.
      * do 2 eexists. split; [ reflexivity | ]. split; [ reflexivity | ].
        right. right. now exists e.
    + do 2 eexists. split; [ reflexivity | ]. split; [ reflexivity | ].
      right. right. now exists e.
  - rewrite (retrieve_daily_falsy _ _ _ _ _ _ Hreq Ht).
    do 2 eexists. split; [ reflexivity | ].
    destruct Hs1 as [-> | [e [He [_ ->]]]].
    + split; [ reflexivity | ]. now left.
    + split; [ reflexivity | ]. right. left. exists e.
      split; [ exact He | ]. cbn. now rewrite <- app_assoc.
Qed.

(* ================================================================== *)
(** * Further properties: what always and what never reshapes *)
(* ================================================================== *)

(** X20.  Exchange retrieval cannot fail on a non-empty array of rows:
    whatever fields the rows have or lack, it returns a table of the rows
    plus two, after three clock readings and without logging. *)
Theorem retrieve_exchanges_total_on_rows w api_key s rows s1 :
  _make_api_request w (exchanges_url api_key) s = (Ok (JArray rows), s1) ->
  rows <> [] ->
  exists t,
    retrieve_exchanges w api_key s
      = (Ok (Some t), mkState (ticks s1 + 3) (logs s1)) /\
    nrows t = length rows + 2.
Proof.
  intros Hreq Hne. destruct rows as [| r rows]; [ contradiction | ].
  rewrite (retrieve_exchanges_array _ _ _ _ _ _ Hreq).
  replace (ticks s1 + 3) with (S (S (S (ticks s1)))) by lia.
  eexists. split; reflexivity.
Qed.

Lemma retrieve_exchanges_total_on_rows_witness :
  _make_api_request (serving (JArray [exchange_row_partial]))
    (exchanges_url "demo") s0
    = (Ok (JArray [exchange_row_partial]), s0) /\
  [exchange_row_partial] <> [] /\
  exists t,
    retrieve_exchanges (serving (JArray [exchange_row_partial])) "demo" s0
      = (Ok (Some t), mkState 3 []) /\
    nrows t = 3.
Proof.
  assert (Hne : [exchange_row_partial] <> []) by discriminate.
  split; [ reflexivity | ]. split; [ exact Hne | ].
  exact (retrieve_exchanges_total_on_rows
           (serving (JArray [exchange_row_partial])) "demo" s0
           [exchange_row_partial] s0 eq_refl Hne).
Defined.

Lemma series_add_raises (vs : list value) (suffix : string) :
  Exists not_text vs -> series_add vs suffix = Raise TypeError.
Proof.
  induction 1 as [v vs Hv | v vs _ IH]; cbn.
  - destruct v; cbn in Hv |- *; try reflexivity; contradiction.
  - rewrite IH. destruct v; reflexivity.
Qed.

Lemma Exists_field (c : string) (rows : list dict) r :
  In r rows -> not_text (field c r) -> Exists not_text (map (field c) rows).
Proof.
  intros Hin Hv. apply Exists_exists. exists (field c r).
  split; [ now apply in_map | exact Hv ].
Qed.

Lemma field_present (c : string) (rows : list dict) r :
  In r rows -> not_text (field c r) -> In c (record_columns rows).
Proof.
  intros Hin Hv. apply In_record_columns. exists r. split; [ exact Hin | ].
  unfold field in Hv. destruct (dict_get c r) eqn:E; [ | contradiction ].
  eapply dict_get_In_keys; eassumption.
Qed.

(** X21.  A provider Code that is a number or a boolean in any one row
    makes ticker retrieval give up on the whole response: the concatenation
    raises TypeError, one ERROR record is written, and the absent result is
    returned. *)
Theorem retrieve_tickers_code_not_text w api_key exchange s rows s1 r :
  _make_api_request w (tickers_url api_key exchange) s
    = (Ok (JArray rows), s1) ->
  In r rows ->
  not_text (field "Code" r) ->
  retrieve_tickers w api_key exchange s
  = (Ok None,
     mkState (S (ticks s1))
       (logs s1 ++ [mkLog ERROR
                      ("Failed to process ticker data for " ++ exchange ++ ": ")
                      (Some TypeError) false])).
Proof.
  intros Hreq Hin Hv. destruct rows as [| r0 rows]; [ destruct Hin | ].
  rewrite (retrieve_tickers_array _ _ _ _ _ _ _ Hreq).
  unfold reshape_tickers, getitem, setitem_scalar.
  rewrite !column_setitem_other by discriminate.
  rewrite column_from_records.
  pose proof (field_present _ _ _ Hin Hv) as Hc.
  apply existsb_eqb_In in Hc. rewrite Hc.
  now rewrite (series_add_raises _ _ (Exists_field _ _ _ Hin Hv)).
Qed.

Lemma retrieve_tickers_code_not_text_witness :
  _make_api_request
    (serving (JArray [ticker_row_demo; ticker_row_numeric_code]))
    (tickers_url "demo" "HK") s0
    = (Ok (JArray [ticker_row_demo; ticker_row_numeric_code]), s0) /\
  In ticker_row_numeric_code [ticker_row_demo; ticker_row_numeric_code] /\
  not_text (field "Code" ticker_row_numeric_code) /\
  retrieve_tickers
    (serving (JArray [ticker_row_demo; ticker_row_numeric_code]))
    "demo" "HK" s0
  = (Ok None,
     mkState 1
       [mkLog ERROR "Failed to process ticker data for HK: "
          (Some TypeError) false]).
Proof.
  assert (Hin : In ticker_row_numeric_code
                   [ticker_row_demo; ticker_row_numeric_code])
    by (right; now left).
  split; [ reflexivity | ]. split; [ exact Hin | ]. split; [ exact I | ].
  exact (retrieve_tickers_code_not_text
           (serving (JArray [ticker_row_demo; ticker_row_numeric_code]))
           "demo" "HK" s0 [ticker_row_demo; ticker_row_numeric_code] s0
           ticker_row_numeric_code eq_refl Hin I).
Defined.

(** X22.  The same holds for daily prices: one row whose [code] is a
    number or a boolean makes the whole call return the absent result, after
    one ERROR record carrying TypeError. *)
Theorem retrieve_daily_code_not_text w exchange api_key s rows s1 r :
  _make_api_request w (daily_url exchange api_key) s = (Ok (JArray rows), s1) ->
  In r rows ->
  not_text (field "code" r) ->
  retrieve_daily_price w exchange api_key s
  = (Ok None,
     mkState (ticks s1)
       (logs s1 ++ [mkLog ERROR
                      ("Failed to process daily prices for " ++ exchange ++ ": ")
                      (Some TypeError) true])).
Proof.
  intros Hreq Hin Hv.
  assert (Ht : truthy (JArray rows) = true)
    by (destruct rows; [ destruct Hin | reflexivity ]).
  rewrite (retrieve_daily_truthy _ _ _ _ _ _ Hreq Ht). cbn [DataFrame].
  unfold reshape_daily, getitem. rewrite column_from_records.
  pose proof (field_present _ _ _ Hin Hv) as Hc.
  apply existsb_eqb_In in Hc. rewrite Hc.
  now rewrite (series_add_raises _ _ (Exists_field _ _ _ Hin Hv)).
Qed.

Lemma retrieve_daily_code_not_text_witness :
  _make_api_request (serving (JArray [daily_row_demo; daily_row_numeric_code]))
    (daily_url "HK" "demo") s0
    = (Ok (JArray [daily_row_demo; daily_row_numeric_code]), s0) /\
  In daily_row_numeric_code [daily_row_demo; daily_row_numeric_code] /\
  not_text (field "code" daily_row_numeric_code) /\
  retrieve_daily_price
    (serving (JArray [daily_row_demo; daily_row_numeric_code])) "HK" "demo" s0
  = (Ok None,
     mkState 0
       [mkLog ERROR "Failed to process daily prices for HK: "
          (Some TypeError) true]).
Proof.
  assert (Hin : In daily_row_numeric_code
                   [daily_row_demo; daily_row_numeric_code])
    by (right; now left).
  split; [ reflexivity | ]. split; [ exact Hin | ]. split; [ exact I | ].
  exact (retrieve_daily_code_not_text
           (serving (JArray [daily_row_demo; daily_row_numeric_code]))
           "HK" "demo" s0 [daily_row_demo; daily_row_numeric_code] s0
           daily_row_numeric_code eq_refl Hin I).
Defined.

(** X23.  Ticker retrieval returns a table for every non-empty array of
    rows in which each of the seven provider fields appears in some row and
    every row's Code is a string; the table has one row per provider row,
    the clock is read once and nothing is logged. *)
Theorem retrieve_tickers_succeeds w api_key exchange s rows s1 :
  _make_api_request w (tickers_url api_key exchange) s
    = (Ok (JArray rows), s1) ->
  rows <> [] ->
  (forall c, In c TICKER_PROVIDER_COLUMNS -> In c (record_columns rows)) ->
  Forall (fun r => is_str (field "Code" r)) rows ->
  exists t,
    retrieve_tickers w api_key exchange s
      = (Ok (Some t), mkState (S (ticks s1)) (logs s1)) /\
    nrows t = length rows.
Proof.
  intros Hreq Hne Hcols Hstr. destruct rows as [| r0 rows0]; [ contradiction | ].
  rewrite (retrieve_tickers_array _ _ _ _ _ _ _ Hreq).
  remember (r0 :: rows0) as rows eqn:Hrows. clear Hrows Hne Hreq.
  assert (E : exists t, reshape_tickers exchange (clock w (ticks s1)) rows = Ok t).
  { unfold reshape_tickers, getitem, setitem_scalar.
    rewrite !column_setitem_other by discriminate.
    rewrite column_from_records.
    rewrite (proj2 (existsb_eqb_In "Code" _) (Hcols "Code" ltac:(cbn; tauto))).
    destruct (series_add_succeeds (map (field "Code") rows) ("_" ++ exchange))
      as [ids ->].
    { apply Forall_map. eapply Forall_impl; [ | exact Hstr ].
      intros r Hr. now right. }
    rewrite !column_setitem_other by discriminate.
    rewrite column_from_records.
    rewrite (proj2 (existsb_eqb_In "Exchange" _)
               (Hcols "Exchange" ltac:(cbn; tauto))).
    apply select_succeeds. apply Forall_forall. intros c Hc.
    apply column_In_columns. unfold columns, setitem. cbn [cols].
    rewrite !In_columns_set_col.
    change (map fst (cols (from_records rows)))
      with (columns (from_records rows)).
    rewrite columns_from_records.
    cbn in Hc.
    destruct Hc as [<- | [<- | [<- | [<- | [<- | [<- | [<- | [<- | [<- | [<- | [<- | []]]]]]]]]]]];
      try tauto;
      do 4 right; apply Hcols; cbn; tauto. }
  destruct E as [t E]. rewrite E. exists t. split; [ reflexivity | ].
  now destruct (reshape_tickers_shape _ _ _ _ E).
Qed.

Lemma retrieve_tickers_succeeds_witness :
  _make_api_request tickers_demo_world (tickers_url "demo" "LSE") s0
    = (Ok (JArray [ticker_row_demo]), s0) /\
  [ticker_row_demo] <> [] /\
  (forall c, In c TICKER_PROVIDER_COLUMNS ->
             In c (record_columns [ticker_row_demo])) /\
  Forall (fun r => is_str (field "Code" r)) [ticker_row_demo] /\
  exists t,
    retrieve_tickers tickers_demo_world "demo" "LSE" s0
      = (Ok (Some t), mkState 1 []) /\
    nrows t = 1.
Proof.
  assert (Hne : [ticker_row_demo] <> []) by discriminate.
  assert (Hcols : forall c, In c TICKER_PROVIDER_COLUMNS ->
                            In c (record_columns [ticker_row_demo]))
    by (intros c Hc; cbn in Hc |- *; tauto).
  assert (Hstr : Forall (fun r => is_str (field "Code" r)) [ticker_row_demo]).
  { constructor; [ now exists "VOD" | constructor ]. }
  split; [ reflexivity | ]. split; [ exact Hne | ]. split; [ exact Hcols | ].
  split; [ exact Hstr | ].
  exact (retrieve_tickers_succeeds tickers_demo_world "demo" "LSE" s0
           [ticker_row_demo] s0 eq_refl Hne Hcols Hstr).
Defined.

(* ================================================================== *)
(** * Further properties: the identifier of historical prices *)
(* ================================================================== *)

Lemma replace_append (old new : ascii) (a b : string) :
  replace old new (a ++ b) = replace old new a ++ replace old new b.
Proof. induction a as [| c a IH]; cbn; [ reflexivity | now rewrite IH ]. Qed.

Lemma replace_length (old new : ascii) (a : string) :
  String.length (replace old new a) = String.length a.
Proof. induction a as [| c a IH]; cbn; [ reflexivity | now rewrite IH ]. Qed.

Lemma replace_again (old new : ascii) (a : string) :
  old <> new -> replace old new (replace old new a) = replace old new a.
Proof.
  intros Hne. induction a as [| c a IH]; cbn; [ reflexivity | ].
  rewrite IH. f_equal.
  destruct (Ascii.eqb_spec c old) as [-> | Hc].
  - apply not_eq_sym, Ascii.eqb_neq in Hne. now rewrite Hne.
  - apply Ascii.eqb_neq in Hc. now rewrite Hc.
Qed.

Lemma replace_gone (old new : ascii) (a : string) (n : nat) :
  old <> new -> String.get n (replace old new a) <> Some old.
Proof.
  intros Hne. revert n. induction a as [| c a IH]; intros n; cbn.
  - discriminate.
  - destruct n as [| n]; [ | apply IH ].
    destruct (Ascii.eqb_spec c old) as [-> | Hc]; congruence.
Qed.

(** X24.  The Ticker_ID that historical-price retrieval synthesizes has no
    period at any position and is as long as ticker, separator and exchange
    together.  It does not tell a period in the ticker from an underscore:
    the ticker with its periods replaced by underscores gets the same
    Ticker_ID. *)
Theorem historical_ticker_id_shape (ticker exchange : string) :
  let id := replace "." "_" (eod_ticker ticker exchange) in
  (forall n, String.get n id <> Some "."%char) /\
  String.length id = String.length ticker + 1 + String.length exchange /\
  replace "." "_" (eod_ticker (replace "." "_" ticker) exchange) = id.
Proof.
  assert (Hne : "."%char <> "_"%char) by discriminate.
  cbn zeta. split; [ | split ].
  - intros n. now apply replace_gone.
  - unfold eod_ticker. rewrite replace_length, !length_append. cbn. lia.
  - unfold eod_ticker. rewrite !replace_append.
    now rewrite replace_again.
Qed.

(* ================================================================== *)
(** * Further properties: failures of the request *)
(* ================================================================== *)

(** X25.  On a request that fails (no response, a 4xx or 5xx status, or a
    body that is not JSON), exchange retrieval and ticker retrieval return
    the absent result with the helper's ERROR record as the only trace, and
    daily-price retrieval adds its WARNING after it: a failed request is
    logged twice there. *)
Theorem helper_retrievals_fail_quietly w s api_key exchange :
  transport_failure (http w (exchanges_url api_key)) ->
  transport_failure (http w (tickers_url api_key exchange)) ->
  transport_failure (http w (daily_url exchange api_key)) ->
  (exists e,
     is_RequestException e = true /\
     retrieve_exchanges w api_key s
     = (Ok None,
        mkState (ticks s)
          (logs s ++ [mkLog ERROR "API request failed: " (Some e) true]))) /\
  (exists e,
     is_RequestException e = true /\
     retrieve_tickers w api_key exchange s
     = (Ok None,
        mkState (ticks s)
          (logs s ++ [mkLog ERROR "API request failed: " (Some e) true]))) /\
  (exists e,
     is_RequestException e = true /\
     retrieve_daily_price w exchange api_key s
     = (Ok None,
        mkState (ticks s)
          ((logs s ++ [mkLog ERROR "API request failed: " (Some e) true])
             ++ [mkLog WARNING
                   ("No daily price data retrieved for " ++ exchange)
                   None false]))).
Proof.
  intros He Ht Hd. split; [ | split ].
  - destruct (make_api_request_failure _ _ s He) as [e [Hr H]].
    exists e. split; [ exact Hr | ].
    apply (retrieve_exchanges_falsy _ _ _ _ _ H). reflexivity.
  - destruct (make_api_request_failure _ _ s Ht) as [e [Hr H]].
    exists e. split; [ exact Hr | ].
    apply (retrieve_tickers_guarded _ _ _ _ _ _ H). now left.
  - destruct (make_api_request_failure _ _ s Hd) as [e [Hr H]].
    exists e. split; [ exact Hr | ].
    apply (retrieve_daily_falsy _ _ _ _ _ _ H). reflexivity.
Qed.

Lemma helper_retrievals_fail_quietly_witness :
  transport_failure (http unreachable (exchanges_url "demo")) /\
  transport_failure (http unreachable (tickers_url "demo" "US")) /\
  transport_failure (http unreachable (daily_url "US" "demo")) /\
  (exists e,
     is_RequestException e = true /\
     retrieve_exchanges unreachable "demo" s0
     = (Ok None,
        mkState 0 [mkLog ERROR "API request failed: " (Some e) true])) /\
  (exists e,
     is_RequestException e = true /\
     retrieve_tickers unreachable "demo" "US" s0
     = (Ok None,
        mkState 0 [mkLog ERROR "API request failed: " (Some e) true])) /\
  (exists e,
     is_RequestException e = true /\
     retrieve_daily_price unreachable "US" "demo" s0
     = (Ok None,
        mkState 0
          [mkLog ERROR "API request failed: " (Some e) true;
           mkLog WARNING "No daily price data retrieved for US" None false])).
Proof.
  split; [ exact I | ]. split; [ exact I | ]. split; [ exact I | ].
  exact (helper_retrievals_fail_quietly unreachable s0 "demo" "US" I I I).
Defined.

(** X26.  When the provider answers a daily-price request with an empty
    body (an empty array, an empty object or null), the function writes one
    WARNING record naming the exchange and returns the absent result; the
    reshaping is never entered. *)
Theorem retrieve_daily_empty w exchange api_key s status data :
  http w (daily_url exchange api_key) = Response status (Some data) ->
  status_passes status = true ->
  truthy data = false ->
  retrieve_daily_price w exchange api_key s
  = (Ok None,
     mkState (ticks s)
       (logs s ++ [mkLog WARNING
                     ("No daily price data retrieved for " ++ exchange)
                     None false])).
Proof.
  intros Hw Hst Hf.
  now rewrite (retrieve_daily_falsy _ _ _ _ _ _
                 (make_api_request_ok _ _ s _ _ Hw Hst) Hf).
Qed.

Lemma retrieve_daily_empty_witness :
  http (serving (JArray [])) (daily_url "US" "demo")
    = Response 200 (Some (JArray [])) /\
  status_passes 200 = true /\
  truthy (JArray []) = false /\
  retrieve_daily_price (serving (JArray [])) "US" "demo" s0
  = (Ok None,
     mkState 0
       [mkLog WARNING "No daily price data retrieved for US" None false]).
Proof.
  split; [ reflexivity | ]. split; [ reflexivity | ]. split; [ reflexivity | ].
  apply (retrieve_daily_empty (serving (JArray [])) "US" "demo" s0 200
           (JArray [])); reflexivity.
Defined.
